(** * DEVsitesbackend: pricing engine, record store and request handlers

    A shallow embedding of [backend/business_logic.py], [backend/database.py],
    [backend/models.py] and the handlers of [backend/server.py].

    Money is a Python [float], that is an IEEE-754 binary64 number: it is
    modelled by Rocq's primitive [float], whose operations are the binary64
    ones.  Strings are byte strings (UTF-8), as [String.string]. *)

From Stdlib Require Import ZArith List Bool String Ascii Lia.
From Stdlib Require Import Sorted Permutation.
From Stdlib Require Import PrimFloat SpecFloat FloatOps.
Import ListNotations.

Local Open Scope string_scope.
Set Warnings "-inexact-float".

(** ** Python's [round(x, 2)] on floats

    CPython rounds the exact binary value of [x] to the nearest multiple of
    1/100, ties to even (dtoa, mode 3), and converts that decimal back to the
    nearest double (strtod).  Not-a-number, infinities and zeros come back
    unchanged. *)

Module PyFloat.

(** The integer nearest to [m * 2^e * 100], ties to the even one. *)
Definition round_half_even_cents (m : positive) (e : Z) : Z :=
  let n := (Z.pos m * 100)%Z in
  match e with
  | Zneg p =>
      let d := Z.pow_pos 2 p in
      let q := (n / d)%Z in
      let r := (n mod d)%Z in
      match (2 * r ?= d)%Z with
      | Lt => q
      | Gt => (q + 1)%Z
      | Eq => if Z.even q then q else (q + 1)%Z
      end
  | _ => (n * 2 ^ e)%Z
  end.

(** The double nearest to [q / 100], with the sign [s]. *)
Definition of_cents_signed (s : bool) (q : Z) : float :=
  match q with
  | Zpos p =>
      SF2Prim (SFdiv prec emax (S754_finite s p 0) (S754_finite false 100 0))
  | _ => if s then neg_zero else zero
  end.

Definition round2 (x : float) : float :=
  match Prim2SF x with
  | S754_finite s m e => of_cents_signed s (round_half_even_cents m e)
  | _ => x
  end.

(** An amount of cents as the double nearest to that decimal. *)
Definition of_cents (c : Z) : float :=
  match c with
  | Zneg p => of_cents_signed true (Zpos p)
  | _ => of_cents_signed false c
  end.

End PyFloat.

(** ** business_logic.py *)

Definition base_prices_get (project_type : string) : option float :=
  if String.eqb project_type "basic" then Some 49.99%float
  else if String.eqb project_type "standard" then Some 69.99%float
  else None.

Definition domain_cost : float := 19.99%float.
Definition database_cost : float := 29.99%float.

Definition calculate_project_cost (project_type : string)
    (include_domain include_database : bool) : float :=
  let total_cost :=
    match base_prices_get project_type with
    | Some p => p
    | None => 49.99%float
    end in
  let total_cost :=
    if include_domain then (total_cost + domain_cost)%float else total_cost in
  let total_cost :=
    if include_database then (total_cost + database_cost)%float else total_cost in
  PyFloat.round2 total_cost.

(** [project_type in ["basic", "standard"]] *)
Definition validate_project_type (project_type : string) : bool :=
  existsb (String.eqb project_type) ["basic"; "standard"].

Definition basic_features : list string :=
  [ "Up to 3 pages";
    "Responsive design";
    "Basic contact form";
    "SEO optimization";
    "Mobile-friendly";
    "2-week delivery";
    "Basic support" ].

Definition standard_features : list string :=
  [ "3+ pages (unlimited)";
    "Advanced responsive design";
    "Multiple contact forms";
    "Advanced SEO optimization";
    "Performance optimization";
    "Social media integration";
    "2-week delivery";
    "Priority support" ].

(** [features.get(project_type, features["basic"])] *)
Definition get_project_features (project_type : string) : list string :=
  if String.eqb project_type "basic" then basic_features
  else if String.eqb project_type "standard" then standard_features
  else basic_features.

(** One entry of the add-on catalogue. *)
Module AddonInfo.
Record t := mk { name : string; price : float; features : list string }.
End AddonInfo.

(** The dict of [get_addon_features], with its two keys. *)
Module AddonCatalog.
Record t := mk { domain : AddonInfo.t; database : AddonInfo.t }.
End AddonCatalog.

Definition get_addon_features : AddonCatalog.t :=
  {| AddonCatalog.domain :=
       {| AddonInfo.name := "Domain Setup";
          AddonInfo.price := 19.99%float;
          AddonInfo.features :=
            [ "Domain registration";
              "DNS configuration";
              "SSL certificate setup";
              "Email forwarding setup" ] |};
     AddonCatalog.database :=
       {| AddonInfo.name := "Database Setup";
          AddonInfo.price := 29.99%float;
          AddonInfo.features :=
            [ "User registration system";
              "Email & name storage";
              "Basic user profiles";
              "Data backup included" ] |} |}.

(** *** [str.title()]

    A cased character is upper-cased when the character before it is not
    cased, and lower-cased otherwise.  The model covers ASCII letters; bytes
    above 127 count as uncased. *)

Module PyStr.

Definition is_lower (c : ascii) : bool :=
  let n := nat_of_ascii c in (97 <=? n)%nat && (n <=? 122)%nat.

Definition is_upper (c : ascii) : bool :=
  let n := nat_of_ascii c in (65 <=? n)%nat && (n <=? 90)%nat.

Definition to_upper (c : ascii) : ascii :=
  if is_lower c then ascii_of_nat (nat_of_ascii c - 32) else c.

Definition to_lower (c : ascii) : ascii :=
  if is_upper c then ascii_of_nat (nat_of_ascii c + 32) else c.

Fixpoint title_from (previous_is_cased : bool) (s : string) : string :=
  match s with
  | EmptyString => EmptyString
  | String c rest =>
      if is_lower c then
        String (if previous_is_cased then c else to_upper c) (title_from true rest)
      else if is_upper c then
        String (if previous_is_cased then to_lower c else c) (title_from true rest)
      else String c (title_from false rest)
  end.

Definition title (s : string) : string := title_from false s.

(** [str.lower()], on ASCII letters. *)
Fixpoint lower (s : string) : string :=
  match s with
  | EmptyString => EmptyString
  | String c rest => String (to_lower c) (lower rest)
  end.

(** [needle in s] *)
Fixpoint contains (needle s : string) : bool :=
  String.prefix needle s ||
  match s with
  | EmptyString => false
  | String _ rest => contains needle rest
  end.

End PyStr.

(** One entry of the summary's ["addons"] list. *)
Module Addon.
Record t := mk { name : string; cost : float; features : list string }.
End Addon.

Module Summary.
Record t := mk {
    project_type : string;
    base_cost : float;
    total_cost : float;
    features : list string;
    addons : list Addon.t;
    estimated_timeline : string;
    support_level : string }.
End Summary.

(** [f"✓ {feature}"] *)
Definition checked (feature : string) : string := "✓ " ++ feature.

Definition addon_entry (a : AddonInfo.t) : Addon.t :=
  {| Addon.name := AddonInfo.name a;
     Addon.cost := AddonInfo.price a;
     Addon.features := AddonInfo.features a |}.

Definition generate_project_summary (project_type : string)
    (include_domain include_database : bool) : Summary.t :=
  let base_features := get_project_features project_type in
  let addon_features := get_addon_features in
  let total_cost :=
    calculate_project_cost project_type include_domain include_database in
  let addons : list Addon.t := [] in
  let features := base_features in
  let '(addons, features) :=
    if include_domain then
      (addons ++ [addon_entry (AddonCatalog.domain addon_features)],
       features ++ map checked (AddonInfo.features (AddonCatalog.domain addon_features)))%list
    else (addons, features) in
  let '(addons, features) :=
    if include_database then
      (addons ++ [addon_entry (AddonCatalog.database addon_features)],
       features ++ map checked (AddonInfo.features (AddonCatalog.database addon_features)))%list
    else (addons, features) in
  {| Summary.project_type := PyStr.title project_type;
     Summary.base_cost :=
       if String.eqb project_type "basic" then 49.99%float else 69.99%float;
     Summary.total_cost := total_cost;
     Summary.features := features;
     Summary.addons := addons;
     Summary.estimated_timeline := "14 days";
     Summary.support_level :=
       if String.eqb project_type "basic" then "Basic" else "Priority" |}.

(** ** models.py *)

(** Identifier strings.  [str(uuid.uuid4())] has 36 characters and
    [str(ObjectId(...))] has 24, so the two kinds never coincide; each is
    named by the rank of its draw from its generator, and no generator
    repeats a value. *)
Inductive ident : Type :=
  | UuidStr (n : nat)
  | ObjectIdStr (n : nat).

Definition ident_eqb (a b : ident) : bool :=
  match a, b with
  | UuidStr n, UuidStr m => Nat.eqb n m
  | ObjectIdStr n, ObjectIdStr m => Nat.eqb n m
  | _, _ => false
  end.

(** A [datetime], as an instant in microseconds. *)
Definition datetime : Type := Z.

(** The store keeps an instant in milliseconds: the driver drops the
    microseconds below a millisecond when it encodes a [datetime], and a
    document read back carries the instant so shortened. *)
Definition bson_datetime (t : datetime) : datetime := (t / 1000 * 1000)%Z.

(** The outcome of validating a string as an [EmailStr]: the address in
    its normal form, or the text of the validation error.  The validator
    is a library of its own, so the operations take it as a parameter. *)
Inductive validated : Type :=
  | Valid (normalised : string)
  | Invalid (message : string).

Module ContactSubmission.
Record t := mk {
    id : ident;
    name : string;
    email : string;
    company : option string;
    project : option string;
    message : string;
    budget : option string;
    status : string;
    created_at : datetime;
    updated_at : datetime }.
End ContactSubmission.

Module ContactSubmissionCreate.
Record t := mk {
    name : string;
    email : string;
    company : option string;
    project : option string;
    message : string;
    budget : option string }.
End ContactSubmissionCreate.

Module ContactResponse.
Record t := mk { success : bool; message : string; id : ident }.
End ContactResponse.

Module ProjectInquiry.
Record t := mk {
    id : ident;
    name : string;
    email : string;
    project_type : string;
    include_domain : bool;
    include_database : bool;
    estimated_cost : float;
    additional_details : option string;
    status : string;
    created_at : datetime;
    updated_at : datetime }.
End ProjectInquiry.

Module ProjectInquiryCreate.
Record t := mk {
    name : string;
    email : string;
    project_type : string;
    include_domain : bool;
    include_database : bool;
    additional_details : option string }.
End ProjectInquiryCreate.

Module ProjectInquiryResponse.
Record t := mk {
    success : bool;
    estimated_cost : float;
    message : string;
    id : ident }.
End ProjectInquiryResponse.

Module NewsletterSubscriber.
Record t := mk {
    id : ident;
    email : string;
    subscribed : bool;
    created_at : datetime;
    updated_at : datetime }.
End NewsletterSubscriber.

Module NewsletterSignupCreate.
Record t := mk { email : string }.
End NewsletterSignupCreate.

Module NewsletterResponse.
Record t := mk { success : bool; message : string }.
End NewsletterResponse.

(** The dict returned by the stats operations. *)
Module Stats.
Record t := mk {
    projects_completed : nat;
    client_satisfaction : nat;
    average_turnaround : nat;
    total_contacts : nat;
    total_inquiries : nat;
    newsletter_subscribers : nat }.
End Stats.

(** The dict of a model as the store keeps it: the instants shortened to
    milliseconds. *)
Definition bson_contact (c : ContactSubmission.t) : ContactSubmission.t :=
  {| ContactSubmission.id := ContactSubmission.id c;
     ContactSubmission.name := ContactSubmission.name c;
     ContactSubmission.email := ContactSubmission.email c;
     ContactSubmission.company := ContactSubmission.company c;
     ContactSubmission.project := ContactSubmission.project c;
     ContactSubmission.message := ContactSubmission.message c;
     ContactSubmission.budget := ContactSubmission.budget c;
     ContactSubmission.status := ContactSubmission.status c;
     ContactSubmission.created_at := bson_datetime (ContactSubmission.created_at c);
     ContactSubmission.updated_at := bson_datetime (ContactSubmission.updated_at c) |}.

Definition bson_inquiry (i : ProjectInquiry.t) : ProjectInquiry.t :=
  {| ProjectInquiry.id := ProjectInquiry.id i;
     ProjectInquiry.name := ProjectInquiry.name i;
     ProjectInquiry.email := ProjectInquiry.email i;
     ProjectInquiry.project_type := ProjectInquiry.project_type i;
     ProjectInquiry.include_domain := ProjectInquiry.include_domain i;
     ProjectInquiry.include_database := ProjectInquiry.include_database i;
     ProjectInquiry.estimated_cost := ProjectInquiry.estimated_cost i;
     ProjectInquiry.additional_details := ProjectInquiry.additional_details i;
     ProjectInquiry.status := ProjectInquiry.status i;
     ProjectInquiry.created_at := bson_datetime (ProjectInquiry.created_at i);
     ProjectInquiry.updated_at := bson_datetime (ProjectInquiry.updated_at i) |}.

Definition bson_subscriber (n : NewsletterSubscriber.t) : NewsletterSubscriber.t :=
  {| NewsletterSubscriber.id := NewsletterSubscriber.id n;
     NewsletterSubscriber.email := NewsletterSubscriber.email n;
     NewsletterSubscriber.subscribed := NewsletterSubscriber.subscribed n;
     NewsletterSubscriber.created_at :=
       bson_datetime (NewsletterSubscriber.created_at n);
     NewsletterSubscriber.updated_at :=
       bson_datetime (NewsletterSubscriber.updated_at n) |}.

(** ** The document store

    A collection is the list of its documents in insertion order.  A stored
    document is the dict of the model ([body]) together with its [_id], the
    ObjectId that the driver draws for a document inserted without one. *)

Record Doc (A : Type) : Type := mkDoc { _id : nat; body : A }.
Arguments mkDoc {A} _ _.
Arguments _id {A} _.
Arguments body {A} _.

Record Store : Type := mkStore {
  contacts : list (Doc ContactSubmission.t);
  project_inquiries : list (Doc ProjectInquiry.t);
  newsletter_subscribers : list (Doc NewsletterSubscriber.t);
  (** whether the unique index on [newsletter_subscribers.email] exists *)
  newsletter_email_unique : bool }.

(** The process: the store, and how many uuids and ObjectIds were drawn,
    how often the clock was read and how many requests were sent to the
    store so far. *)
Record World : Type := mkWorld {
  db : Store;
  uuids_drawn : nat;
  object_ids_drawn : nat;
  clock_reads : nat;
  db_calls : nat }.

Definition empty_store : Store :=
  {| contacts := []; project_inquiries := []; newsletter_subscribers := [];
     newsletter_email_unique := false |}.

Definition initial_world : World :=
  {| db := empty_store; uuids_drawn := 0; object_ids_drawn := 0;
     clock_reads := 0; db_calls := 0 |}.

(** ** Exceptions and the monad of the asynchronous operations *)

Inductive exn : Type :=
  | Error (msg : string)
  | HTTPException (status_code : nat) (detail : string).

(** [str(e)]; only the text of an [Error] is ever read. *)
Definition exn_str (e : exn) : string :=
  match e with
  | Error msg => msg
  | HTTPException _ detail => detail
  end.

Inductive result (A : Type) : Type :=
  | Ok (a : A)
  | Raise (e : exn).
Arguments Ok {A} _.
Arguments Raise {A} _.

Definition M (A : Type) : Type := World -> result A * World.

Definition ret {A} (a : A) : M A := fun w => (Ok a, w).

Definition raise {A} (e : exn) : M A := fun w => (Raise e, w).

Definition bind {A B} (m : M A) (k : A -> M B) : M B :=
  fun w =>
    match m w with
    | (Ok a, w') => k a w'
    | (Raise e, w') => (Raise e, w')
    end.

(** [try: m  except Exception as e: handler e] *)
Definition try_except {A} (m : M A) (handler : exn -> M A) : M A :=
  fun w =>
    match m w with
    | (Ok a, w') => (Ok a, w')
    | (Raise e, w') => handler e w'
    end.

Notation "x <- m ;; k" := (bind m (fun x => k))
  (at level 61, m at next level, right associativity).
Notation "m ;;; k" := (bind m (fun _ => k))
  (at level 61, right associativity).

Definition get_store : M Store := fun w => (Ok (db w), w).

Definition put_store (s : Store) : M unit :=
  fun w => (Ok tt, {| db := s; uuids_drawn := uuids_drawn w;
                      object_ids_drawn := object_ids_drawn w;
                      clock_reads := clock_reads w; db_calls := db_calls w |}).

(** [str(uuid.uuid4())] *)
Definition uuid4 : M ident :=
  fun w => (Ok (UuidStr (uuids_drawn w)),
            {| db := db w; uuids_drawn := S (uuids_drawn w);
               object_ids_drawn := object_ids_drawn w;
               clock_reads := clock_reads w; db_calls := db_calls w |}).

(** [bson.ObjectId()], drawn by the driver *)
Definition new_object_id : M nat :=
  fun w => (Ok (object_ids_drawn w),
            {| db := db w; uuids_drawn := uuids_drawn w;
               object_ids_drawn := S (object_ids_drawn w);
               clock_reads := clock_reads w; db_calls := db_calls w |}).

Definition set_contacts (s : Store) (l : list (Doc ContactSubmission.t)) : Store :=
  {| contacts := l; project_inquiries := project_inquiries s;
     newsletter_subscribers := newsletter_subscribers s;
     newsletter_email_unique := newsletter_email_unique s |}.

Definition set_project_inquiries (s : Store) (l : list (Doc ProjectInquiry.t)) : Store :=
  {| contacts := contacts s; project_inquiries := l;
     newsletter_subscribers := newsletter_subscribers s;
     newsletter_email_unique := newsletter_email_unique s |}.

Definition set_newsletter_subscribers (s : Store)
    (l : list (Doc NewsletterSubscriber.t)) : Store :=
  {| contacts := contacts s; project_inquiries := project_inquiries s;
     newsletter_subscribers := l;
     newsletter_email_unique := newsletter_email_unique s |}.

Definition set_newsletter_email_unique (s : Store) (b : bool) : Store :=
  {| contacts := contacts s; project_inquiries := project_inquiries s;
     newsletter_subscribers := newsletter_subscribers s;
     newsletter_email_unique := b |}.

(** [update_one]: the first document that matches is the one changed. *)
Fixpoint update_first {A} (p : A -> bool) (f : A -> A) (l : list A) : list A :=
  match l with
  | [] => []
  | x :: rest => if p x then f x :: rest else x :: update_first p f rest
  end.

(** [sort(key, -1)]: descending by [key]; documents with equal keys keep
    their insertion order. *)
Fixpoint insert_desc {A} (key : A -> Z) (x : A) (l : list A) : list A :=
  match l with
  | [] => [x]
  | y :: rest =>
      if (key x <? key y)%Z then y :: insert_desc key x rest else x :: y :: rest
  end.

Definition sort_desc {A} (key : A -> Z) (l : list A) : list A :=
  fold_right (insert_desc key) [] l.

(** [cursor.limit(n)]: a limit of 0 is no limit. *)
Definition cursor_limit {A} (limit : nat) (l : list A) : list A :=
  match limit with
  | O => l
  | _ => firstn limit l
  end.

(** [cursor.to_list(length=n)]: at most [n] documents. *)
Definition to_list {A} (length : nat) (l : list A) : list A := firstn length l.

Definition has_email (email : string) (d : Doc NewsletterSubscriber.t) : bool :=
  String.eqb (NewsletterSubscriber.email (body d)) email.

Definition has_id (contact_id : ident) (d : Doc ContactSubmission.t) : bool :=
  ident_eqb (ContactSubmission.id (body d)) contact_id.

(** The message of pymongo's [DuplicateKeyError]. *)
Definition duplicate_key_message (email : string) : string :=
  "E11000 duplicate key error collection: newsletter_subscribers index: email_1 dup key: { email: "
  ++ email ++ " }".

(** ** The driver: clock, requests and collection operations *)

Module Driver.
Section Env.

(** The environment of the process: what the clock shows at its [k]-th
    reading, and the error message, if any, with which the [k]-th request to
    the store fails. *)
Variable utcnow_at : nat -> datetime.
Variable fault_at : nat -> option string.

(** [datetime.utcnow()] *)
Definition utcnow : M datetime :=
  fun w => (Ok (utcnow_at (clock_reads w)),
            {| db := db w; uuids_drawn := uuids_drawn w;
               object_ids_drawn := object_ids_drawn w;
               clock_reads := S (clock_reads w); db_calls := db_calls w |}).

(** One request to the store: it fails when the environment says so. *)
Definition db_call : M unit :=
  fun w =>
    let w' := {| db := db w; uuids_drawn := uuids_drawn w;
                 object_ids_drawn := object_ids_drawn w;
                 clock_reads := clock_reads w; db_calls := S (db_calls w) |} in
    match fault_at (db_calls w) with
    | Some msg => (Raise (Error msg), w')
    | None => (Ok tt, w')
    end.

(** *** Collection operations of the driver *)

(** [db.contacts.insert_one(doc)]; the result is [inserted_id]. *)
Definition contacts_insert_one (c : ContactSubmission.t) : M (option nat) :=
  oid <- new_object_id ;;
  db_call ;;;
  s <- get_store ;;
  put_store (set_contacts s (contacts s ++ [mkDoc oid (bson_contact c)])) ;;;
  ret (Some oid).

Definition project_inquiries_insert_one (i : ProjectInquiry.t) : M (option nat) :=
  oid <- new_object_id ;;
  db_call ;;;
  s <- get_store ;;
  put_store (set_project_inquiries s
               (project_inquiries s ++ [mkDoc oid (bson_inquiry i)])) ;;;
  ret (Some oid).

(** With the unique index, an email already stored is refused. *)
Definition newsletter_subscribers_insert_one (n : NewsletterSubscriber.t)
    : M (option nat) :=
  oid <- new_object_id ;;
  db_call ;;;
  s <- get_store ;;
  if newsletter_email_unique s
     && existsb (has_email (NewsletterSubscriber.email n)) (newsletter_subscribers s)
  then raise (Error (duplicate_key_message (NewsletterSubscriber.email n)))
  else
    put_store (set_newsletter_subscribers s
                 (newsletter_subscribers s ++ [mkDoc oid (bson_subscriber n)])) ;;;
    ret (Some oid).

Definition set_contact_status (status : string) (now : datetime)
    (d : Doc ContactSubmission.t) : Doc ContactSubmission.t :=
  let c := body d in
  mkDoc (_id d)
    {| ContactSubmission.id := ContactSubmission.id c;
       ContactSubmission.name := ContactSubmission.name c;
       ContactSubmission.email := ContactSubmission.email c;
       ContactSubmission.company := ContactSubmission.company c;
       ContactSubmission.project := ContactSubmission.project c;
       ContactSubmission.message := ContactSubmission.message c;
       ContactSubmission.budget := ContactSubmission.budget c;
       ContactSubmission.status := status;
       ContactSubmission.created_at := ContactSubmission.created_at c;
       ContactSubmission.updated_at := now |}.

(** [db.contacts.update_one({"id": contact_id}, {"$set": {"status": status,
    "updated_at": now}})]; the instant is stored in milliseconds; the result
    is [modified_count], which counts a matched document only when the
    update changed what is stored. *)
Definition contacts_update_one (contact_id : ident) (status : string)
    (now : datetime) : M nat :=
  db_call ;;;
  s <- get_store ;;
  put_store (set_contacts s
               (update_first (has_id contact_id)
                  (set_contact_status status (bson_datetime now))
                  (contacts s))) ;;;
  ret (match find (has_id contact_id) (contacts s) with
       | Some d =>
           if String.eqb (ContactSubmission.status (body d)) status
              && Z.eqb (ContactSubmission.updated_at (body d)) (bson_datetime now)
           then 0 else 1
       | None => 0
       end).

Definition set_subscribed (now : datetime) (d : Doc NewsletterSubscriber.t)
    : Doc NewsletterSubscriber.t :=
  let n := body d in
  mkDoc (_id d)
    {| NewsletterSubscriber.id := NewsletterSubscriber.id n;
       NewsletterSubscriber.email := NewsletterSubscriber.email n;
       NewsletterSubscriber.subscribed := true;
       NewsletterSubscriber.created_at := NewsletterSubscriber.created_at n;
       NewsletterSubscriber.updated_at := now |}.

(** [db.newsletter_subscribers.update_one({"email": email}, {"$set":
    {"subscribed": True, "updated_at": now}})]; the instant is stored in
    milliseconds. *)
Definition newsletter_subscribers_update_one (email : string) (now : datetime)
    : M unit :=
  db_call ;;;
  s <- get_store ;;
  put_store (set_newsletter_subscribers s
               (update_first (has_email email) (set_subscribed (bson_datetime now))
                  (newsletter_subscribers s))).

(** [db.newsletter_subscribers.find_one({"email": email})] *)
Definition newsletter_subscribers_find_one (email : string)
    : M (option (Doc NewsletterSubscriber.t)) :=
  db_call ;;;
  s <- get_store ;;
  ret (find (has_email email) (newsletter_subscribers s)).

(** [db.contacts.find().skip(skip).limit(limit).sort("created_at", -1)]
    read with [to_list(length=limit)].  The store sorts before it skips and
    limits; a negative [skip] is refused by the cursor and a negative length
    by [to_list], before any request is sent. *)
Definition contacts_find_page (skip limit : Z)
    : M (list (Doc ContactSubmission.t)) :=
  if (skip <? 0)%Z then raise (Error "skip must be >= 0")
  else if (limit <? 0)%Z then raise (Error "length must be non-negative")
  else
    db_call ;;;
    s <- get_store ;;
    ret (to_list (Z.to_nat limit)
           (cursor_limit (Z.to_nat limit)
              (skipn (Z.to_nat skip)
                 (sort_desc (fun d => ContactSubmission.created_at (body d))
                    (contacts s))))).

(** Whether no email occurs twice in the collection. *)
Fixpoint emails_distinct (l : list (Doc NewsletterSubscriber.t)) : bool :=
  match l with
  | [] => true
  | d :: rest =>
      negb (existsb (has_email (NewsletterSubscriber.email (body d))) rest)
      && emails_distinct rest
  end.

(** [db.newsletter_subscribers.create_index("email", unique=True)]: the
    store refuses to build the index over a collection that breaks it. *)
Definition newsletter_subscribers_create_unique_index : M unit :=
  db_call ;;;
  s <- get_store ;;
  if emails_distinct (newsletter_subscribers s)
  then put_store (set_newsletter_email_unique s true)
  else raise (Error "E11000 duplicate key error collection: newsletter_subscribers index: email_1").

(** [create_index] of an index that is not unique; it changes no query
    result. *)
Definition create_plain_index : M unit := db_call.

(** [count_documents] on the three collections *)
Definition contacts_count_documents : M nat :=
  db_call ;;; s <- get_store ;; ret (List.length (contacts s)).

Definition project_inquiries_count_documents : M nat :=
  db_call ;;; s <- get_store ;; ret (List.length (project_inquiries s)).

Definition newsletter_subscribers_count_subscribed : M nat :=
  db_call ;;;
  s <- get_store ;;
  ret (List.length
         (filter (fun d => NewsletterSubscriber.subscribed (body d))
            (newsletter_subscribers s))).

(** [db.project_inquiries.find().skip(skip).limit(limit).sort("created_at", -1)]
    read with [to_list(length=limit)] *)
Definition project_inquiries_find_page (skip limit : Z)
    : M (list (Doc ProjectInquiry.t)) :=
  if (skip <? 0)%Z then raise (Error "skip must be >= 0")
  else if (limit <? 0)%Z then raise (Error "length must be non-negative")
  else
    db_call ;;;
    s <- get_store ;;
    ret (to_list (Z.to_nat limit)
           (cursor_limit (Z.to_nat limit)
              (skipn (Z.to_nat skip)
                 (sort_desc (fun d => ProjectInquiry.created_at (body d))
                    (project_inquiries s))))).

(** [db.newsletter_subscribers.find(filter_query).sort("created_at", -1)]
    read with [to_list(length=None)], which reads every document;
    [filter_query] is [{"subscribed": True}] when [active_only], else [{}]. *)
Definition newsletter_subscribers_find_sorted (active_only : bool)
    : M (list (Doc NewsletterSubscriber.t)) :=
  db_call ;;;
  s <- get_store ;;
  ret (sort_desc (fun d => NewsletterSubscriber.created_at (body d))
         (if active_only
          then filter (fun d => NewsletterSubscriber.subscribed (body d))
                 (newsletter_subscribers s)
          else newsletter_subscribers s)).

End Env.
End Driver.

(** ** database.py *)

Module Database.
Section Env.

Variable validate_email : string -> validated.
Variable utcnow_at : nat -> datetime.
Variable fault_at : nat -> option string.

Abbreviation utcnow := (Driver.utcnow utcnow_at).

Definition create_indexes : M unit :=
  try_except
    (Driver.newsletter_subscribers_create_unique_index fault_at ;;;
     Driver.create_plain_index fault_at ;;;
     Driver.create_plain_index fault_at ;;;
     Driver.create_plain_index fault_at ;;;
     Driver.create_plain_index fault_at)
    (fun _ => ret tt).

(** [ContactSubmission( **contact_data )]: the default factories of [id],
    [created_at] and [updated_at] run in the order of the fields.  The dict
    is that of the validated request model, so its email is an address in
    normal form already. *)
Definition new_ContactSubmission (contact_data : ContactSubmissionCreate.t)
    : M ContactSubmission.t :=
  id <- uuid4 ;;
  created_at <- utcnow ;;
  updated_at <- utcnow ;;
  ret {| ContactSubmission.id := id;
         ContactSubmission.name := ContactSubmissionCreate.name contact_data;
         ContactSubmission.email := ContactSubmissionCreate.email contact_data;
         ContactSubmission.company := ContactSubmissionCreate.company contact_data;
         ContactSubmission.project := ContactSubmissionCreate.project contact_data;
         ContactSubmission.message := ContactSubmissionCreate.message contact_data;
         ContactSubmission.budget := ContactSubmissionCreate.budget contact_data;
         ContactSubmission.status := "new";
         ContactSubmission.created_at := created_at;
         ContactSubmission.updated_at := updated_at |}.

Definition contact_with_id (c : ContactSubmission.t) (id : ident)
    : ContactSubmission.t :=
  {| ContactSubmission.id := id;
     ContactSubmission.name := ContactSubmission.name c;
     ContactSubmission.email := ContactSubmission.email c;
     ContactSubmission.company := ContactSubmission.company c;
     ContactSubmission.project := ContactSubmission.project c;
     ContactSubmission.message := ContactSubmission.message c;
     ContactSubmission.budget := ContactSubmission.budget c;
     ContactSubmission.status := ContactSubmission.status c;
     ContactSubmission.created_at := ContactSubmission.created_at c;
     ContactSubmission.updated_at := ContactSubmission.updated_at c |}.

Definition create_contact (contact_data : ContactSubmissionCreate.t)
    : M ContactSubmission.t :=
  contact <- new_ContactSubmission contact_data ;;
  inserted_id <- Driver.contacts_insert_one fault_at contact ;;
  ret (contact_with_id contact
         (match inserted_id with
          | Some oid => ObjectIdStr oid
          | None => ContactSubmission.id contact
          end)).

(** [ContactSubmission( **contact )] keeps the fields of the model and drops
    the [_id] of the document. *)
Definition get_contacts (skip limit : Z) : M (list ContactSubmission.t) :=
  contacts <- Driver.contacts_find_page fault_at skip limit ;;
  ret (map body contacts).

Definition update_contact_status (contact_id : ident) (status : string) : M bool :=
  now <- utcnow ;;
  modified_count <- Driver.contacts_update_one fault_at contact_id status now ;;
  ret (0 <? modified_count)%nat.

(** [ProjectInquiry( **inquiry_data )], where [inquiry_data] is the dict of
    the validated request model with the key ["estimated_cost"] added. *)
Definition new_ProjectInquiry (inquiry_data : ProjectInquiryCreate.t)
    (estimated_cost : float) : M ProjectInquiry.t :=
  id <- uuid4 ;;
  created_at <- utcnow ;;
  updated_at <- utcnow ;;
  ret {| ProjectInquiry.id := id;
         ProjectInquiry.name := ProjectInquiryCreate.name inquiry_data;
         ProjectInquiry.email := ProjectInquiryCreate.email inquiry_data;
         ProjectInquiry.project_type := ProjectInquiryCreate.project_type inquiry_data;
         ProjectInquiry.include_domain := ProjectInquiryCreate.include_domain inquiry_data;
         ProjectInquiry.include_database :=
           ProjectInquiryCreate.include_database inquiry_data;
         ProjectInquiry.estimated_cost := estimated_cost;
         ProjectInquiry.additional_details :=
           ProjectInquiryCreate.additional_details inquiry_data;
         ProjectInquiry.status := "pending";
         ProjectInquiry.created_at := created_at;
         ProjectInquiry.updated_at := updated_at |}.

Definition inquiry_with_id (i : ProjectInquiry.t) (id : ident) : ProjectInquiry.t :=
  {| ProjectInquiry.id := id;
     ProjectInquiry.name := ProjectInquiry.name i;
     ProjectInquiry.email := ProjectInquiry.email i;
     ProjectInquiry.project_type := ProjectInquiry.project_type i;
     ProjectInquiry.include_domain := ProjectInquiry.include_domain i;
     ProjectInquiry.include_database := ProjectInquiry.include_database i;
     ProjectInquiry.estimated_cost := ProjectInquiry.estimated_cost i;
     ProjectInquiry.additional_details := ProjectInquiry.additional_details i;
     ProjectInquiry.status := ProjectInquiry.status i;
     ProjectInquiry.created_at := ProjectInquiry.created_at i;
     ProjectInquiry.updated_at := ProjectInquiry.updated_at i |}.

Definition create_project_inquiry (inquiry_data : ProjectInquiryCreate.t)
    (estimated_cost : float) : M ProjectInquiry.t :=
  inquiry <- new_ProjectInquiry inquiry_data estimated_cost ;;
  inserted_id <- Driver.project_inquiries_insert_one fault_at inquiry ;;
  ret (inquiry_with_id inquiry
         (match inserted_id with
          | Some oid => ObjectIdStr oid
          | None => ProjectInquiry.id inquiry
          end)).

(** [NewsletterSubscriber(email=email)]: the fields are filled in their
    order and the errors of validation are raised at the end, so the
    default factories run also for an address that is refused; the model
    holds the address in its normal form. *)
Definition new_NewsletterSubscriber (email : string) : M NewsletterSubscriber.t :=
  id <- uuid4 ;;
  created_at <- utcnow ;;
  updated_at <- utcnow ;;
  match validate_email email with
  | Invalid message => raise (Error message)
  | Valid normalised =>
      ret {| NewsletterSubscriber.id := id;
             NewsletterSubscriber.email := normalised;
             NewsletterSubscriber.subscribed := true;
             NewsletterSubscriber.created_at := created_at;
             NewsletterSubscriber.updated_at := updated_at |}
  end.

Definition subscriber_with_id (n : NewsletterSubscriber.t) (id : ident)
    : NewsletterSubscriber.t :=
  {| NewsletterSubscriber.id := id;
     NewsletterSubscriber.email := NewsletterSubscriber.email n;
     NewsletterSubscriber.subscribed := NewsletterSubscriber.subscribed n;
     NewsletterSubscriber.created_at := NewsletterSubscriber.created_at n;
     NewsletterSubscriber.updated_at := NewsletterSubscriber.updated_at n |}.

Definition subscribe_newsletter (email : string) : M NewsletterSubscriber.t :=
  try_except
    (subscriber <- new_NewsletterSubscriber email ;;
     inserted_id <- Driver.newsletter_subscribers_insert_one fault_at subscriber ;;
     ret (subscriber_with_id subscriber
            (match inserted_id with
             | Some oid => ObjectIdStr oid
             | None => NewsletterSubscriber.id subscriber
             end)))
    (fun e =>
       if PyStr.contains "duplicate key" (PyStr.lower (exn_str e)) then
         now <- utcnow ;;
         Driver.newsletter_subscribers_update_one fault_at email now ;;;
         existing <- Driver.newsletter_subscribers_find_one fault_at email ;;
         match existing with
         | Some d => ret (body d)
         | None =>
             raise (Error "argument after ** must be a mapping, not NoneType")
         end
       else raise e).

Definition default_stats : Stats.t :=
  {| Stats.projects_completed := 100;
     Stats.client_satisfaction := 100;
     Stats.average_turnaround := 14;
     Stats.total_contacts := 0;
     Stats.total_inquiries := 0;
     Stats.newsletter_subscribers := 0 |}.

Definition get_company_stats : M Stats.t :=
  try_except
    (total_contacts <- Driver.contacts_count_documents fault_at ;;
     total_inquiries <- Driver.project_inquiries_count_documents fault_at ;;
     total_subscribers <- Driver.newsletter_subscribers_count_subscribed fault_at ;;
     let projects_completed := total_inquiries + 85 in
     let client_satisfaction := 100 in
     let average_turnaround := 14 in
     ret {| Stats.projects_completed := projects_completed;
            Stats.client_satisfaction := client_satisfaction;
            Stats.average_turnaround := average_turnaround;
            Stats.total_contacts := total_contacts;
            Stats.total_inquiries := total_inquiries;
            Stats.newsletter_subscribers := total_subscribers |})
    (fun _ => ret default_stats).

Definition get_project_inquiries (skip limit : Z) : M (list ProjectInquiry.t) :=
  inquiries <- Driver.project_inquiries_find_page fault_at skip limit ;;
  ret (map body inquiries).

Definition get_newsletter_subscribers (active_only : bool)
    : M (list NewsletterSubscriber.t) :=
  subscribers <- Driver.newsletter_subscribers_find_sorted fault_at active_only ;;
  ret (map body subscribers).

End Env.
End Database.

(** ** server.py *)

Module Server.
Section Env.

Variable validate_email : string -> validated.
Variable utcnow_at : nat -> datetime.
Variable fault_at : nat -> option string.

Definition submit_contact_form (contact_data : ContactSubmissionCreate.t)
    : M ContactResponse.t :=
  try_except
    (contact <- Database.create_contact utcnow_at fault_at contact_data ;;
     ret {| ContactResponse.success := true;
            ContactResponse.message :=
              "Thank you for your message! We'll get back to you within 24 hours.";
            ContactResponse.id := ContactSubmission.id contact |})
    (fun _ => raise (HTTPException 500 "Failed to submit contact form")).

Definition submit_project_inquiry (inquiry_data : ProjectInquiryCreate.t)
    : M ProjectInquiryResponse.t :=
  try_except
    (if negb (validate_project_type (ProjectInquiryCreate.project_type inquiry_data))
     then raise (HTTPException 400 "Invalid project type")
     else
       let estimated_cost :=
         calculate_project_cost
           (ProjectInquiryCreate.project_type inquiry_data)
           (ProjectInquiryCreate.include_domain inquiry_data)
           (ProjectInquiryCreate.include_database inquiry_data) in
       inquiry <- Database.create_project_inquiry utcnow_at fault_at
                    inquiry_data estimated_cost ;;
       ret {| ProjectInquiryResponse.success := true;
              ProjectInquiryResponse.estimated_cost := estimated_cost;
              ProjectInquiryResponse.message :=
                "We'll prepare a detailed proposal and send it to you within 24 hours.";
              ProjectInquiryResponse.id := ProjectInquiry.id inquiry |})
    (fun e =>
       match e with
       | HTTPException _ _ => raise e
       | Error _ => raise (HTTPException 500 "Failed to submit project inquiry")
       end).

Definition subscribe_newsletter (newsletter_data : NewsletterSignupCreate.t)
    : M NewsletterResponse.t :=
  try_except
    (Database.subscribe_newsletter validate_email utcnow_at fault_at
       (NewsletterSignupCreate.email newsletter_data) ;;;
     ret {| NewsletterResponse.success := true;
            NewsletterResponse.message :=
              "Successfully subscribed to our newsletter!" |})
    (fun _ =>
       ret {| NewsletterResponse.success := true;
              NewsletterResponse.message :=
                "Thank you for your interest! We'll keep you updated." |}).

Definition fallback_stats : Stats.t :=
  {| Stats.projects_completed := 100;
     Stats.client_satisfaction := 99;
     Stats.average_turnaround := 14;
     Stats.total_contacts := 0;
     Stats.total_inquiries := 0;
     Stats.newsletter_subscribers := 0 |}.

Definition get_company_stats : M Stats.t :=
  try_except
    (stats <- Database.get_company_stats fault_at ;; ret stats)
    (fun _ => ret fallback_stats).

Definition get_project_summary (project_type : string)
    (include_domain include_database : bool) : M Summary.t :=
  try_except
    (if negb (validate_project_type project_type)
     then raise (HTTPException 400 "Invalid project type")
     else
       let summary :=
         generate_project_summary project_type include_domain include_database in
       ret summary)
    (fun e =>
       match e with
       | HTTPException _ _ => raise e
       | Error _ => raise (HTTPException 500 "Failed to generate project summary")
       end).

Definition get_contacts (skip limit : Z) : M (list ContactSubmission.t) :=
  try_except
    (contacts <- Database.get_contacts fault_at skip limit ;; ret contacts)
    (fun _ => raise (HTTPException 500 "Failed to retrieve contacts")).

Definition get_project_inquiries (skip limit : Z) : M (list ProjectInquiry.t) :=
  try_except
    (inquiries <- Database.get_project_inquiries fault_at skip limit ;;
     ret inquiries)
    (fun _ => raise (HTTPException 500 "Failed to retrieve inquiries")).

End Env.
End Server.

(** * Properties of the pricing engine *)

(** The price table as the specification words it: 49.99 for ["basic"],
    69.99 for ["standard"], and the Basic price for every other string. *)
Definition spec_base_price (project_type : string) : float :=
  if String.eqb project_type "basic" then 49.99%float
  else if String.eqb project_type "standard" then 69.99%float
  else 49.99%float.

(** The same table in exact cents. *)
Definition spec_base_cents (project_type : string) : Z :=
  if String.eqb project_type "basic" then 4999%Z
  else if String.eqb project_type "standard" then 6999%Z
  else 4999%Z.

Example round2_examples :
  PyFloat.round2 0.125%float = 0.12%float
  /\ PyFloat.round2 2.675%float = 2.67%float
  /\ PyFloat.round2 89.97999999999999%float = 89.98%float
  /\ PyFloat.round2 1000000000000000.25%float = 1000000000000000.2%float.
Proof. vm_compute. repeat split; reflexivity. Qed.

Example cost_drifts_before_rounding :
  (69.99 + 19.99 + 29.99)%float <> 119.97%float
  /\ PyFloat.round2 (69.99 + 19.99 + 29.99)%float = 119.97%float.
Proof. vm_compute. split; [discriminate | reflexivity]. Qed.

Example title_examples :
  PyStr.title "basic" = "Basic" /\ PyStr.title "hello wORLD-x" = "Hello World-X".
Proof. split; reflexivity. Qed.

Lemma validate_project_type_iff (t : string) :
  validate_project_type t = true <-> t = "basic" \/ t = "standard".
Proof.
  unfold validate_project_type; simpl.
  rewrite !orb_true_iff, !String.eqb_eq.
  intuition discriminate.
Qed.

Lemma validate_false_eqb (t : string) :
  validate_project_type t = false ->
  String.eqb t "basic" = false /\ String.eqb t "standard" = false.
Proof.
  unfold validate_project_type; simpl.
  rewrite !orb_false_iff. tauto.
Qed.

(** C1: the cost is the base price of the type (Basic for an unknown type)
    plus the prices of the chosen add-ons, rounded to two decimals; the
    result is the double nearest to the exact sum in cents.  In particular
    basic without add-ons costs 49.99, standard with both 119.97, and an
    unrecognized type without add-ons 49.99. *)
Theorem calculate_project_cost_spec :
  (forall t d b,
      calculate_project_cost t d b
      = PyFloat.round2 (spec_base_price t
                        + (if d then 19.99 else 0)
                        + (if b then 29.99 else 0))%float
      /\ calculate_project_cost t d b
         = PyFloat.of_cents (spec_base_cents t
                             + (if d then 1999 else 0)
                             + (if b then 2999 else 0))%Z)
  /\ calculate_project_cost "basic" false false = 49.99%float
  /\ calculate_project_cost "standard" true true = 119.97%float
  /\ (forall t, validate_project_type t = false ->
                calculate_project_cost t false false = 49.99%float).
Proof.
  split; [| split; [| split]].
  - intros t d b.
    unfold calculate_project_cost, base_prices_get, spec_base_price, spec_base_cents.
    destruct (String.eqb t "basic"), (String.eqb t "standard"), d, b;
      vm_compute; split; reflexivity.
  - vm_compute; reflexivity.
  - vm_compute; reflexivity.
  - intros t Hv. apply validate_false_eqb in Hv as [Hb Hs].
    unfold calculate_project_cost, base_prices_get.
    rewrite Hb, Hs. vm_compute; reflexivity.
Qed.

Lemma calculate_project_cost_spec_witness :
  validate_project_type "premium" = false
  /\ calculate_project_cost "premium" false false = 49.99%float.
Proof.
  split; [reflexivity |].
  apply (proj2 (proj2 (proj2 calculate_project_cost_spec))). reflexivity.
Defined.

(** The check mark U+2713 in UTF-8. *)
Definition check_mark : string :=
  String (ascii_of_nat 226) (String (ascii_of_nat 156) (String (ascii_of_nat 147) "")).

(** The feature lines an option set adds, domain lines first. *)
Definition spec_addon_lines (d b : bool) : list string :=
  ((if d
    then map (fun f => (check_mark ++ " " ++ f)%string)
           (AddonInfo.features (AddonCatalog.domain get_addon_features))
    else [])
   ++
   (if b
    then map (fun f => (check_mark ++ " " ++ f)%string)
           (AddonInfo.features (AddonCatalog.database get_addon_features))
    else []))%list.

Definition spec_addons (d b : bool) : list Addon.t :=
  ((if d then [Addon.mk "Domain Setup" 19.99%float
                 (AddonInfo.features (AddonCatalog.domain get_addon_features))]
    else [])
   ++
   (if b then [Addon.mk "Database Setup" 29.99%float
                 (AddonInfo.features (AddonCatalog.database get_addon_features))]
    else []))%list.

Lemma summary_features (t : string) (d b : bool) :
  Summary.features (generate_project_summary t d b)
  = (get_project_features t ++ spec_addon_lines d b)%list.
Proof.
  unfold generate_project_summary, spec_addon_lines.
  destruct d, b; cbn [Summary.features]; rewrite <- ?app_assoc, ?app_nil_r; reflexivity.
Qed.

Lemma summary_addons (t : string) (d b : bool) :
  Summary.addons (generate_project_summary t d b) = spec_addons d b.
Proof. destruct d, b; reflexivity. Qed.

(** C4: for a valid project type the summary carries the title-cased type,
    the base cost of the type, the total of [calculate_project_cost], the
    base features followed by the check-marked lines of the chosen add-ons
    (domain before database), one [addons] entry per chosen add-on, the
    timeline "14 days" and the support level Basic or Priority. *)
Theorem generate_project_summary_spec (t : string) (d b : bool) :
  validate_project_type t = true ->
  let s := generate_project_summary t d b in
  Summary.project_type s = PyStr.title t
  /\ Summary.project_type s
     = (if String.eqb t "basic" then "Basic" else "Standard")
  /\ Summary.base_cost s = spec_base_price t
  /\ Summary.total_cost s = calculate_project_cost t d b
  /\ Summary.features s = (get_project_features t ++ spec_addon_lines d b)%list
  /\ Summary.addons s = spec_addons d b
  /\ Summary.estimated_timeline s = "14 days"
  /\ Summary.support_level s
     = (if String.eqb t "basic" then "Basic" else "Priority").
Proof.
  intros Hv s. subst s.
  rewrite summary_features, summary_addons.
  apply validate_project_type_iff in Hv as [-> | ->];
    destruct d, b; repeat split; reflexivity.
Qed.

Lemma generate_project_summary_spec_witness :
  Summary.features (generate_project_summary "standard" true true)
  = (standard_features ++ spec_addon_lines true true)%list.
Proof.
  apply (generate_project_summary_spec "standard" true true). reflexivity.
Defined.

Example summary_standard_domain :
  let s := generate_project_summary "standard" true false in
  Summary.total_cost s = 89.98%float
  /\ Summary.addons s
     = [Addon.mk "Domain Setup" 19.99%float
          ["Domain registration"; "DNS configuration";
           "SSL certificate setup"; "Email forwarding setup"]]
  /\ Summary.support_level s = "Priority"
  /\ nth 8 (Summary.features s) "" = check_mark ++ " Domain registration".
Proof. vm_compute. repeat split; reflexivity. Qed.

(** C10: for a type that is neither "basic" nor "standard" the summary
    reports the Standard base cost and support level, while its total and
    its features come from the Basic catalogue; without add-ons the total is
    below the reported base cost. *)
Theorem summary_unrecognized_type (t : string) (d b : bool) :
  validate_project_type t = false ->
  let s := generate_project_summary t d b in
  Summary.base_cost s = 69.99%float
  /\ Summary.support_level s = "Priority"
  /\ Summary.total_cost s
     = PyFloat.of_cents (4999 + (if d then 1999 else 0) + (if b then 2999 else 0))%Z
  /\ Summary.features s = (basic_features ++ spec_addon_lines d b)%list
  /\ (d = false -> b = false ->
      Summary.total_cost s = 49.99%float
      /\ PrimFloat.ltb (Summary.total_cost s) (Summary.base_cost s) = true).
Proof.
  intros Hv s. subst s.
  rewrite summary_features.
  apply validate_false_eqb in Hv as [Hb Hs].
  unfold generate_project_summary, calculate_project_cost, base_prices_get,
    get_project_features.
  rewrite Hb, Hs.
  destruct d, b; (split; [| split; [| split; [| split]]]);
    try reflexivity; try (vm_compute; reflexivity);
    intros Hd Hdb; try discriminate.
  split; vm_compute; reflexivity.
Qed.

Lemma summary_unrecognized_type_witness :
  Summary.base_cost (generate_project_summary "premium" false false) = 69.99%float
  /\ Summary.total_cost (generate_project_summary "premium" false false) = 49.99%float.
Proof.
  pose proof (summary_unrecognized_type "premium" false false eq_refl) as H.
  cbv zeta in H.
  destruct H as (Hbase & _ & _ & _ & Hlt).
  split; [exact Hbase | exact (proj1 (Hlt eq_refl eq_refl))].
Defined.

(** * Properties of the request handlers *)

(** Unfolds the monad and the primitive effects, leaving the pricing
    functions folded. *)
Ltac run_monad :=
  cbv beta iota zeta delta
    [bind ret raise try_except get_store put_store uuid4 new_object_id
     Driver.utcnow Driver.db_call
     Driver.contacts_insert_one Driver.project_inquiries_insert_one
     Driver.contacts_count_documents Driver.project_inquiries_count_documents
     Driver.newsletter_subscribers_count_subscribed
     Database.new_ContactSubmission Database.create_contact
     Database.new_ProjectInquiry Database.create_project_inquiry
     Database.get_company_stats
     Server.submit_contact_form Server.submit_project_inquiry
     Server.get_company_stats Server.get_project_summary
     db uuids_drawn object_ids_drawn clock_reads db_calls fst snd negb].

Section Handlers.

Variable validate_email : string -> validated.
Variable utcnow_at : nat -> datetime.
Variable fault_at : nat -> option string.

(** The inquiry that [submit_project_inquiry] builds in the world [w]. *)
Definition inquiry_built (inquiry_data : ProjectInquiryCreate.t) (w : World)
    : ProjectInquiry.t :=
  {| ProjectInquiry.id := UuidStr (uuids_drawn w);
     ProjectInquiry.name := ProjectInquiryCreate.name inquiry_data;
     ProjectInquiry.email := ProjectInquiryCreate.email inquiry_data;
     ProjectInquiry.project_type := ProjectInquiryCreate.project_type inquiry_data;
     ProjectInquiry.include_domain := ProjectInquiryCreate.include_domain inquiry_data;
     ProjectInquiry.include_database := ProjectInquiryCreate.include_database inquiry_data;
     ProjectInquiry.estimated_cost :=
       calculate_project_cost
         (ProjectInquiryCreate.project_type inquiry_data)
         (ProjectInquiryCreate.include_domain inquiry_data)
         (ProjectInquiryCreate.include_database inquiry_data);
     ProjectInquiry.additional_details :=
       ProjectInquiryCreate.additional_details inquiry_data;
     ProjectInquiry.status := "pending";
     ProjectInquiry.created_at := utcnow_at (clock_reads w);
     ProjectInquiry.updated_at := utcnow_at (S (clock_reads w)) |}.

Lemma submit_project_inquiry_invalid inquiry_data w :
  validate_project_type (ProjectInquiryCreate.project_type inquiry_data) = false ->
  Server.submit_project_inquiry utcnow_at fault_at inquiry_data w
  = (Raise (HTTPException 400 "Invalid project type"), w).
Proof.
  intros Hv. unfold Server.submit_project_inquiry, try_except.
  rewrite Hv. reflexivity.
Qed.

Lemma submit_project_inquiry_valid inquiry_data w :
  validate_project_type (ProjectInquiryCreate.project_type inquiry_data) = true ->
  Server.submit_project_inquiry utcnow_at fault_at inquiry_data w
  = match fault_at (db_calls w) with
    | Some _ =>
        (Raise (HTTPException 500 "Failed to submit project inquiry"),
         {| db := db w;
            uuids_drawn := S (uuids_drawn w);
            object_ids_drawn := S (object_ids_drawn w);
            clock_reads := S (S (clock_reads w));
            db_calls := S (db_calls w) |})
    | None =>
        (Ok {| ProjectInquiryResponse.success := true;
               ProjectInquiryResponse.estimated_cost :=
                 ProjectInquiry.estimated_cost (inquiry_built inquiry_data w);
               ProjectInquiryResponse.message :=
                 "We'll prepare a detailed proposal and send it to you within 24 hours.";
               ProjectInquiryResponse.id := ObjectIdStr (object_ids_drawn w) |},
         {| db := set_project_inquiries (db w)
                    (project_inquiries (db w)
                     ++ [mkDoc (object_ids_drawn w)
                           (bson_inquiry (inquiry_built inquiry_data w))]);
            uuids_drawn := S (uuids_drawn w);
            object_ids_drawn := S (object_ids_drawn w);
            clock_reads := S (S (clock_reads w));
            db_calls := S (db_calls w) |})
    end.
Proof.
  intros Hv. unfold Server.submit_project_inquiry, try_except.
  rewrite Hv. destruct w as [s u o c k]. run_monad.
  destruct (fault_at k); reflexivity.
Qed.

Lemma get_project_summary_run t d b w :
  Server.get_project_summary t d b w
  = if validate_project_type t
    then (Ok (generate_project_summary t d b), w)
    else (Raise (HTTPException 400 "Invalid project type"), w).
Proof.
  unfold Server.get_project_summary, try_except.
  destruct (validate_project_type t); reflexivity.
Qed.

Lemma submit_project_inquiry_succeeds inquiry_data w :
  validate_project_type (ProjectInquiryCreate.project_type inquiry_data) = true ->
  fault_at (db_calls w) = None ->
  exists resp w',
    Server.submit_project_inquiry utcnow_at fault_at inquiry_data w = (Ok resp, w').
Proof.
  intros Hv Hf. rewrite (submit_project_inquiry_valid _ _ Hv), Hf. eauto.
Qed.

(** C5: a project type is valid exactly when it is "basic" or "standard";
    [submit_project_inquiry] answers 400 "Invalid project type" exactly when
    the type is not valid, and then leaves the world as it was;
    [get_project_summary] answers the same error exactly for those types and
    the summary otherwise. *)
Theorem project_type_validation inquiry_data w t d b :
  (validate_project_type t = true <-> t = "basic" \/ t = "standard")
  /\ (validate_project_type (ProjectInquiryCreate.project_type inquiry_data) = false
      <-> fst (Server.submit_project_inquiry utcnow_at fault_at inquiry_data w)
          = Raise (HTTPException 400 "Invalid project type"))
  /\ (validate_project_type (ProjectInquiryCreate.project_type inquiry_data) = false
      -> snd (Server.submit_project_inquiry utcnow_at fault_at inquiry_data w) = w)
  /\ (validate_project_type t = false
      <-> Server.get_project_summary t d b w
          = (Raise (HTTPException 400 "Invalid project type"), w))
  /\ (validate_project_type t = true
      <-> Server.get_project_summary t d b w
          = (Ok (generate_project_summary t d b), w)).
Proof.
  split; [apply validate_project_type_iff |].
  split; [split |].
  - intros Hv. rewrite (submit_project_inquiry_invalid _ _ Hv). reflexivity.
  - intros H.
    destruct (validate_project_type (ProjectInquiryCreate.project_type inquiry_data))
      eqn:Hv; [| reflexivity].
    rewrite (submit_project_inquiry_valid _ _ Hv) in H.
    destruct (fault_at (db_calls w)); cbn [fst] in H; discriminate H.
  - split.
    + intros Hv. rewrite (submit_project_inquiry_invalid _ _ Hv). reflexivity.
    + rewrite get_project_summary_run.
      destruct (validate_project_type t); split; split; intro H;
        first [reflexivity | discriminate H].
Qed.

(** C2: when [submit_project_inquiry] succeeds, the cost it returns and the
    cost of the inquiry it appended to the store are both
    [calculate_project_cost] of the options of the request; for a standard
    inquiry with the domain add-on only this is 89.98. *)
Theorem inquiry_estimated_cost inquiry_data w resp w' :
  Server.submit_project_inquiry utcnow_at fault_at inquiry_data w = (Ok resp, w') ->
  let cost :=
    calculate_project_cost
      (ProjectInquiryCreate.project_type inquiry_data)
      (ProjectInquiryCreate.include_domain inquiry_data)
      (ProjectInquiryCreate.include_database inquiry_data) in
  ProjectInquiryResponse.estimated_cost resp = cost
  /\ (exists oid inquiry,
        project_inquiries (db w')
        = (project_inquiries (db w) ++ [mkDoc oid inquiry])%list
        /\ ProjectInquiryResponse.id resp = ObjectIdStr oid
        /\ ProjectInquiry.estimated_cost inquiry = cost
        /\ ProjectInquiry.project_type inquiry
           = ProjectInquiryCreate.project_type inquiry_data
        /\ ProjectInquiry.include_domain inquiry
           = ProjectInquiryCreate.include_domain inquiry_data
        /\ ProjectInquiry.include_database inquiry
           = ProjectInquiryCreate.include_database inquiry_data)
  /\ (ProjectInquiryCreate.project_type inquiry_data = "standard" ->
      ProjectInquiryCreate.include_domain inquiry_data = true ->
      ProjectInquiryCreate.include_database inquiry_data = false ->
      ProjectInquiryResponse.estimated_cost resp = 89.98%float).
Proof.
  intros H cost.
  destruct (validate_project_type (ProjectInquiryCreate.project_type inquiry_data))
    eqn:Hv.
  - rewrite (submit_project_inquiry_valid _ _ Hv) in H.
    destruct (fault_at (db_calls w)); [discriminate H |].
    injection H as Hr Hw. subst resp w'.
    split; [reflexivity |]. split.
    + exists (object_ids_drawn w), (bson_inquiry (inquiry_built inquiry_data w)).
      repeat split; reflexivity.
    + intros Ht Hd Hb.
      change (cost = 89.98%float). subst cost.
      rewrite Ht, Hd, Hb. vm_compute. reflexivity.
  - rewrite (submit_project_inquiry_invalid _ _ Hv) in H. discriminate H.
Qed.

(** C6: whatever [Database.subscribe_newsletter] does, the handler returns a
    response with [success = true]; an error of the store becomes the
    response "Thank you for your interest! We'll keep you updated.". *)
Theorem newsletter_signup_never_fails newsletter_data w :
  (exists message,
      fst (Server.subscribe_newsletter validate_email utcnow_at fault_at newsletter_data w)
      = Ok {| NewsletterResponse.success := true;
              NewsletterResponse.message := message |})
  /\ (forall e w',
         Database.subscribe_newsletter validate_email utcnow_at fault_at
           (NewsletterSignupCreate.email newsletter_data) w = (Raise e, w') ->
         Server.subscribe_newsletter validate_email utcnow_at fault_at newsletter_data w
         = (Ok {| NewsletterResponse.success := true;
                  NewsletterResponse.message :=
                    "Thank you for your interest! We'll keep you updated." |},
            w')).
Proof.
  unfold Server.subscribe_newsletter, try_except, bind, ret.
  destruct (Database.subscribe_newsletter validate_email utcnow_at fault_at
              (NewsletterSignupCreate.email newsletter_data) w) as [[r | e] w1].
  - split; [eexists; reflexivity |]. intros e w' H. discriminate H.
  - split; [eexists; reflexivity |]. intros e' w' H.
    injection H as He Hw. subst. reflexivity.
Qed.

(** The statistics of a store, as the specification words them. *)
Definition stats_of_store (s : Store) : Stats.t :=
  {| Stats.projects_completed := List.length (project_inquiries s) + 85;
     Stats.client_satisfaction := 100;
     Stats.average_turnaround := 14;
     Stats.total_contacts := List.length (contacts s);
     Stats.total_inquiries := List.length (project_inquiries s);
     Stats.newsletter_subscribers :=
       List.length
         (filter (fun d => NewsletterSubscriber.subscribed (body d))
            (newsletter_subscribers s)) |}.

(** The three counting requests issued from the world [w] all succeed. *)
Definition counts_succeed (w : World) : bool :=
  match fault_at (db_calls w) with
  | Some _ => false
  | None =>
      match fault_at (S (db_calls w)) with
      | Some _ => false
      | None =>
          match fault_at (S (S (db_calls w))) with
          | Some _ => false
          | None => true
          end
      end
  end.

(** C7: [get_company_stats] always returns: the statistics of the store
    when its three counting requests succeed, and when one of them fails the
    fixed object with 100 projects completed, a client satisfaction of 100,
    a turnaround of 14 and all counts 0; the store is left as it was. *)
Theorem get_stats_never_fails w :
  fst (Server.get_company_stats fault_at w)
  = Ok (if counts_succeed w then stats_of_store (db w)
        else {| Stats.projects_completed := 100;
                Stats.client_satisfaction := 100;
                Stats.average_turnaround := 14;
                Stats.total_contacts := 0;
                Stats.total_inquiries := 0;
                Stats.newsletter_subscribers := 0 |})
  /\ db (snd (Server.get_company_stats fault_at w)) = db w.
Proof.
  destruct w as [s u o c k]. unfold counts_succeed. run_monad.
  destruct (fault_at k); [split; reflexivity |].
  destruct (fault_at (S k)); [split; reflexivity |].
  destruct (fault_at (S (S k))); split; reflexivity.
Qed.

End Handlers.

(** * Properties of the record store *)

(** ** Lists: pages, sorting, updates *)

Lemma to_list_cursor_limit {A} (n : nat) (l : list A) :
  to_list n (cursor_limit n l) = firstn n l.
Proof.
  unfold to_list, cursor_limit. destruct n as [| n]; [reflexivity |].
  rewrite firstn_firstn, Nat.min_id. reflexivity.
Qed.

Lemma firstn_then_next {A} (n m : nat) (l : list A) :
  (firstn n l ++ firstn m (skipn n l))%list = firstn (n + m) l.
Proof.
  revert l. induction n as [| n IH]; intros l; [reflexivity |].
  destruct l as [| x l]; cbn [firstn skipn Nat.add app].
  - rewrite firstn_nil. reflexivity.
  - rewrite IH. reflexivity.
Qed.

Lemma not_in_both_of_NoDup {A} (l1 l2 : list A) (x : A) :
  NoDup (l1 ++ l2) -> In x l1 -> ~ In x l2.
Proof.
  induction l1 as [| y l1 IH]; cbn; intros Hnd Hin Hin2; [contradiction |].
  inversion Hnd as [| ? ? Hny Hnd']; subst.
  destruct Hin as [-> | Hin].
  - apply Hny. apply in_or_app. right. exact Hin2.
  - exact (IH Hnd' Hin Hin2).
Qed.

Lemma In_firstn_of {A} (n : nat) (l : list A) (x : A) :
  In x (firstn n l) -> In x l.
Proof.
  intros H. rewrite <- (firstn_skipn n l). apply in_or_app. left. exact H.
Qed.

Lemma NoDup_firstn_of {A} (n : nat) (l : list A) : NoDup l -> NoDup (firstn n l).
Proof.
  intros H. rewrite <- (firstn_skipn n l) in H.
  exact (NoDup_app_remove_r _ _ H).
Qed.

Lemma NoDup_skipn_of {A} (n : nat) (l : list A) : NoDup l -> NoDup (skipn n l).
Proof.
  intros H. rewrite <- (firstn_skipn n l) in H.
  exact (NoDup_app_remove_l _ _ H).
Qed.

Section SortDesc.

Context {A : Type} (key : A -> Z).

(** [a] comes before [b] in a list sorted by [key], descending. *)
Definition desc (a b : A) : Prop := (key b <= key a)%Z.

Lemma insert_desc_perm (x : A) (l : list A) :
  Permutation (insert_desc key x l) (x :: l).
Proof.
  induction l as [| y l IH]; cbn; [reflexivity |].
  destruct (key x <? key y)%Z.
  - rewrite IH. apply perm_swap.
  - reflexivity.
Qed.

Lemma sort_desc_perm (l : list A) : Permutation (sort_desc key l) l.
Proof.
  induction l as [| x l IH]; cbn; [constructor |].
  rewrite insert_desc_perm. constructor. exact IH.
Qed.

Lemma insert_desc_sorted (x : A) (l : list A) :
  StronglySorted desc l -> StronglySorted desc (insert_desc key x l).
Proof.
  induction 1 as [| y l Hs IH Hall]; cbn.
  - constructor; constructor.
  - destruct (key x <? key y)%Z eqn:E.
    + constructor; [exact IH |].
      apply Z.ltb_lt in E.
      rewrite Forall_forall in *. intros z Hz.
      apply (Permutation_in _ (insert_desc_perm x l)) in Hz.
      destruct Hz as [<- | Hz]; [unfold desc; lia | exact (Hall z Hz)].
    + apply Z.ltb_ge in E.
      constructor; [constructor; assumption |].
      constructor; [exact E |].
      rewrite Forall_forall in *. intros z Hz.
      specialize (Hall z Hz). unfold desc in *. lia.
Qed.

Lemma sort_desc_sorted (l : list A) : StronglySorted desc (sort_desc key l).
Proof.
  induction l as [| x l IH]; cbn; [constructor |].
  apply insert_desc_sorted. exact IH.
Qed.

Lemma sorted_skipn (n : nat) (l : list A) :
  StronglySorted desc l -> StronglySorted desc (skipn n l).
Proof.
  revert l. induction n as [| n IH]; intros l H; [exact H |].
  destruct H; cbn; [constructor | apply IH; assumption].
Qed.

Lemma sorted_firstn (n : nat) (l : list A) :
  StronglySorted desc l -> StronglySorted desc (firstn n l).
Proof.
  revert l. induction n as [| n IH]; intros l H; [constructor |].
  destruct H as [| x l Hs Hall]; cbn; [constructor |].
  constructor; [apply IH; exact Hs |].
  rewrite Forall_forall in *. intros z Hz.
  apply Hall. eapply In_firstn_of. exact Hz.
Qed.

End SortDesc.

(** ** Pages of contacts *)

(** The contacts of a store, newest first, as the models the handlers see. *)
Definition sorted_contacts (s : Store) : list ContactSubmission.t :=
  map body
    (sort_desc (fun d => ContactSubmission.created_at (body d)) (contacts s)).

(** The page of [limit] contacts after the first [skip]. *)
Definition contacts_page (s : Store) (skip limit : nat) : list ContactSubmission.t :=
  firstn limit (skipn skip (sorted_contacts s)).

(** No two stored contacts have the same [id] field. *)
Definition contact_ids_distinct (s : Store) : Prop :=
  NoDup (map (fun d => ContactSubmission.id (body d)) (contacts s)).

Definition newest_first (l : list ContactSubmission.t) : Prop :=
  StronglySorted (desc ContactSubmission.created_at) l.

Lemma sorted_contacts_newest_first (s : Store) : newest_first (sorted_contacts s).
Proof.
  unfold newest_first, sorted_contacts.
  pose proof (sort_desc_sorted
                (fun d : Doc ContactSubmission.t =>
                   ContactSubmission.created_at (body d)) (contacts s)) as H.
  induction H as [| d l Hs IH Hall]; cbn; constructor; [exact IH |].
  rewrite Forall_forall in *. intros c Hc.
  apply in_map_iff in Hc as (d' & <- & Hd'). exact (Hall d' Hd').
Qed.

Lemma sorted_contacts_NoDup (s : Store) :
  contact_ids_distinct s -> NoDup (sorted_contacts s).
Proof.
  unfold contact_ids_distinct, sorted_contacts. intros H.
  rewrite <- (map_map body ContactSubmission.id) in H.
  apply NoDup_map_inv in H.
  eapply Permutation_NoDup; [| exact H].
  apply Permutation_map. symmetry. apply sort_desc_perm.
Qed.

Lemma contacts_page_newest_first (s : Store) (skip limit : nat) :
  newest_first (contacts_page s skip limit).
Proof.
  apply sorted_firstn, sorted_skipn, sorted_contacts_newest_first.
Qed.

(** Consecutive pages compose, from any offset and for any sizes. *)
Lemma contacts_page_compose (s : Store) (skip n m : nat) :
  (contacts_page s skip n ++ contacts_page s (skip + n) m)%list
  = contacts_page s skip (n + m).
Proof.
  unfold contacts_page.
  rewrite <- (firstn_then_next n m), Nat.add_comm, <- skipn_skipn. reflexivity.
Qed.

Lemma contacts_page_disjoint (s : Store) (skip n m : nat) (c : ContactSubmission.t) :
  contact_ids_distinct s ->
  In c (contacts_page s skip n) -> ~ In c (contacts_page s (skip + n) m).
Proof.
  intros Hd. apply not_in_both_of_NoDup.
  rewrite contacts_page_compose. unfold contacts_page.
  apply NoDup_firstn_of, NoDup_skipn_of, sorted_contacts_NoDup, Hd.
Qed.

(** ** Updating the first match *)

Lemma update_first_app_last {A} (p : A -> bool) (f : A -> A) (l : list A) (d : A) :
  existsb p l = false -> p d = true ->
  update_first p f (l ++ [d]) = (l ++ [f d])%list.
Proof.
  intros Hl Hd. induction l as [| x l IH]; cbn in *.
  - rewrite Hd. reflexivity.
  - apply orb_false_iff in Hl as [Hx Hl]. rewrite Hx, (IH Hl). reflexivity.
Qed.

Lemma find_app_last {A} (p : A -> bool) (l : list A) (d : A) :
  existsb p l = false -> p d = true -> find p (l ++ [d]) = Some d.
Proof.
  intros Hl Hd. induction l as [| x l IH]; cbn in *.
  - rewrite Hd. reflexivity.
  - apply orb_false_iff in Hl as [Hx Hl]. rewrite Hx. exact (IH Hl).
Qed.

Lemma filter_none {A} (p : A -> bool) (l : list A) :
  existsb p l = false -> filter p l = [].
Proof.
  induction l as [| x l IH]; cbn; [reflexivity |].
  intros H. apply orb_false_iff in H as [Hx Hl]. rewrite Hx. exact (IH Hl).
Qed.

Lemma find_update_first {A} (p : A -> bool) (f : A -> A) (l : list A) (d : A) :
  find p l = Some d -> p (f d) = true ->
  find p (update_first p f l) = Some (f d).
Proof.
  induction l as [| x l IH]; cbn; [discriminate |].
  destruct (p x) eqn:Hx; intros H Hfd.
  - injection H as ->. cbn. rewrite Hfd. reflexivity.
  - cbn. rewrite Hx. exact (IH H Hfd).
Qed.

Lemma find_some_existsb {A} (p : A -> bool) (l : list A) (d : A) :
  find p l = Some d -> existsb p l = true.
Proof.
  induction l as [| x l IH]; cbn; [discriminate |].
  destruct (p x); [reflexivity | exact IH].
Qed.

Lemma existsb_false_find {A} (p : A -> bool) (l : list A) :
  existsb p l = false -> find p l = None.
Proof.
  induction l as [| x l IH]; cbn; [reflexivity |].
  destruct (p x); [discriminate | exact IH].
Qed.

Lemma update_first_none {A} (p : A -> bool) (f : A -> A) (l : list A) :
  existsb p l = false -> update_first p f l = l.
Proof.
  induction l as [| x l IH]; cbn; [reflexivity |].
  destruct (p x); [discriminate |]. intros H. rewrite (IH H). reflexivity.
Qed.

Lemma has_email_set_subscribed (e : string) (now : datetime)
    (d : Doc NewsletterSubscriber.t) :
  has_email e (Driver.set_subscribed now d) = has_email e d.
Proof. reflexivity. Qed.

Lemma map_email_update_first (e : string) (now : datetime)
    (l : list (Doc NewsletterSubscriber.t)) :
  map (fun d => NewsletterSubscriber.email (body d))
    (update_first (has_email e) (Driver.set_subscribed now) l)
  = map (fun d => NewsletterSubscriber.email (body d)) l.
Proof.
  induction l as [| x l IH]; cbn; [reflexivity |].
  destruct (has_email e x); cbn; [reflexivity | rewrite IH; reflexivity].
Qed.

Lemma existsb_update_first (e e' : string) (now : datetime)
    (l : list (Doc NewsletterSubscriber.t)) :
  existsb (has_email e')
    (update_first (has_email e) (Driver.set_subscribed now) l)
  = existsb (has_email e') l.
Proof.
  induction l as [| x l IH]; cbn; [reflexivity |].
  destruct (has_email e x); cbn; [reflexivity | rewrite IH; reflexivity].
Qed.

Lemma emails_distinct_update_first (e : string) (now : datetime)
    (l : list (Doc NewsletterSubscriber.t)) :
  Driver.emails_distinct
    (update_first (has_email e) (Driver.set_subscribed now) l)
  = Driver.emails_distinct l.
Proof.
  induction l as [| x l IH]; cbn; [reflexivity |].
  destruct (has_email e x); cbn; [reflexivity |].
  rewrite existsb_update_first, IH. reflexivity.
Qed.

Lemma emails_distinct_app_last (l : list (Doc NewsletterSubscriber.t))
    (d : Doc NewsletterSubscriber.t) :
  Driver.emails_distinct l = true ->
  existsb (has_email (NewsletterSubscriber.email (body d))) l = false ->
  Driver.emails_distinct (l ++ [d]) = true.
Proof.
  induction l as [| x l IH]; cbn; [reflexivity |].
  intros Hd Hex.
  apply andb_true_iff in Hd as [Hx Hd].
  apply orb_false_iff in Hex as [Hxd Hex].
  rewrite existsb_app, (IH Hd Hex). cbn.
  apply negb_true_iff in Hx. rewrite Hx. cbn.
  unfold has_email in *. rewrite String.eqb_sym, Hxd. reflexivity.
Qed.

(** The error of a refused duplicate is recognized by the handler of
    [subscribe_newsletter]. *)
Lemma duplicate_key_recognized (email : string) :
  PyStr.contains "duplicate key"
    (PyStr.lower (exn_str (Error (duplicate_key_message email)))) = true.
Proof. reflexivity. Qed.

Section Store.

Variable validate_email : string -> validated.
Variable utcnow_at : nat -> datetime.
Variable fault_at : nat -> option string.

(** The world after one request to the store that changed nothing. *)
Definition after_call (w : World) : World :=
  {| db := db w; uuids_drawn := uuids_drawn w;
     object_ids_drawn := object_ids_drawn w;
     clock_reads := clock_reads w; db_calls := S (db_calls w) |}.

Lemma get_contacts_run (skip limit : Z) (w : World) :
  (0 <= skip)%Z -> (0 <= limit)%Z -> fault_at (db_calls w) = None ->
  Database.get_contacts fault_at skip limit w
  = (Ok (contacts_page (db w) (Z.to_nat skip) (Z.to_nat limit)), after_call w).
Proof.
  intros Hs Hl Hf.
  unfold Database.get_contacts, Driver.contacts_find_page.
  apply Z.ltb_ge in Hs, Hl. rewrite Hs, Hl.
  unfold bind, Driver.db_call, get_store, ret. rewrite Hf.
  cbn [db]. rewrite to_list_cursor_limit, <- firstn_map, <- skipn_map.
  reflexivity.
Qed.

(** C8: with a store whose contacts have distinct ids, the pages (0, 10)
    and (10, 10) are disjoint, their concatenation is the page (0, 20), and
    each page is sorted by [created_at], newest first. *)
Theorem contacts_pagination (w1 w2 w3 : World) :
  db w2 = db w1 -> db w3 = db w1 ->
  fault_at (db_calls w1) = None ->
  fault_at (db_calls w2) = None ->
  fault_at (db_calls w3) = None ->
  contact_ids_distinct (db w1) ->
  exists p1 p2 p3,
    fst (Database.get_contacts fault_at 0 10 w1) = Ok p1
    /\ fst (Database.get_contacts fault_at 10 10 w2) = Ok p2
    /\ fst (Database.get_contacts fault_at 0 20 w3) = Ok p3
    /\ (p1 ++ p2)%list = p3
    /\ (forall c, In c p1 -> ~ In c p2)
    /\ newest_first p1 /\ newest_first p2 /\ newest_first p3.
Proof.
  intros E2 E3 F1 F2 F3 Hd.
  rewrite (get_contacts_run 0 10 w1), (get_contacts_run 10 10 w2),
    (get_contacts_run 0 20 w3) by (assumption || lia).
  rewrite E2, E3. cbn [fst].
  change (Z.to_nat 0) with 0%nat. change (Z.to_nat 10) with 10%nat.
  change (Z.to_nat 20) with 20%nat.
  eexists _, _, _. repeat split; try apply contacts_page_newest_first.
  - exact (contacts_page_compose (db w1) 0 10 10).
  - intros c. exact (contacts_page_disjoint (db w1) 0 10 10 c Hd).
Qed.

(** ** Newsletter subscriptions *)

Ltac run_newsletter :=
  cbv beta iota zeta delta
    [bind ret raise try_except get_store put_store uuid4 new_object_id
     Driver.utcnow Driver.db_call
     Driver.newsletter_subscribers_insert_one
     Driver.newsletter_subscribers_update_one
     Driver.newsletter_subscribers_find_one
     Database.new_NewsletterSubscriber Database.subscribe_newsletter
     db uuids_drawn object_ids_drawn clock_reads db_calls fst snd
     NewsletterSubscriber.email].

(** The subscriber that [subscribe_newsletter] builds in the world [w] for
    an address whose normal form is [normalised]. *)
Definition subscriber_built (normalised : string) (w : World)
    : NewsletterSubscriber.t :=
  {| NewsletterSubscriber.id := UuidStr (uuids_drawn w);
     NewsletterSubscriber.email := normalised;
     NewsletterSubscriber.subscribed := true;
     NewsletterSubscriber.created_at := utcnow_at (clock_reads w);
     NewsletterSubscriber.updated_at := utcnow_at (S (clock_reads w)) |}.

(** How many stored subscribers have this email. *)
Definition email_count (email : string) (s : Store) : nat :=
  List.length (filter (has_email email) (newsletter_subscribers s)).

Lemma subscribe_newsletter_fresh (email normalised : string) (w : World) :
  validate_email email = Valid normalised ->
  fault_at (db_calls w) = None ->
  existsb (has_email normalised) (newsletter_subscribers (db w)) = false ->
  Database.subscribe_newsletter validate_email utcnow_at fault_at email w
  = (Ok (Database.subscriber_with_id (subscriber_built normalised w)
           (ObjectIdStr (object_ids_drawn w))),
     {| db := set_newsletter_subscribers (db w)
                (newsletter_subscribers (db w)
                 ++ [mkDoc (object_ids_drawn w)
                       (bson_subscriber (subscriber_built normalised w))]);
        uuids_drawn := S (uuids_drawn w);
        object_ids_drawn := S (object_ids_drawn w);
        clock_reads := S (S (clock_reads w));
        db_calls := S (db_calls w) |}).
Proof.
  destruct w as [s u o c k]. cbn [db db_calls]. intros Hv Hf Hex.
  run_newsletter. rewrite Hv. run_newsletter. rewrite Hf. run_newsletter.
  rewrite Hex, andb_false_r. reflexivity.
Qed.

Lemma subscribe_newsletter_existing (email normalised : string) (w : World)
    (d : Doc NewsletterSubscriber.t) :
  validate_email email = Valid normalised ->
  fault_at (db_calls w) = None ->
  fault_at (S (db_calls w)) = None ->
  fault_at (S (S (db_calls w))) = None ->
  newsletter_email_unique (db w) = true ->
  existsb (has_email normalised) (newsletter_subscribers (db w)) = true ->
  find (has_email email) (newsletter_subscribers (db w)) = Some d ->
  let now := bson_datetime (utcnow_at (S (S (clock_reads w)))) in
  Database.subscribe_newsletter validate_email utcnow_at fault_at email w
  = (Ok (body (Driver.set_subscribed now d)),
     {| db := set_newsletter_subscribers (db w)
                (update_first (has_email email) (Driver.set_subscribed now)
                   (newsletter_subscribers (db w)));
        uuids_drawn := S (uuids_drawn w);
        object_ids_drawn := S (object_ids_drawn w);
        clock_reads := S (S (S (clock_reads w)));
        db_calls := S (S (S (db_calls w))) |}).
Proof.
  destruct w as [s u o c k]. cbn [db db_calls clock_reads].
  intros Hv Hf1 Hf2 Hf3 Hu Hdup Hfind. cbv zeta.
  run_newsletter. rewrite Hv. run_newsletter. rewrite Hf1. run_newsletter.
  rewrite Hu, Hdup. cbn [andb].
  run_newsletter. rewrite duplicate_key_recognized.
  run_newsletter. rewrite Hf2. run_newsletter. rewrite Hf3.
  cbn [newsletter_subscribers set_newsletter_subscribers].
  rewrite (find_update_first _
             (Driver.set_subscribed (bson_datetime (utcnow_at (S (S c))))) _ _ Hfind).
  - reflexivity.
  - rewrite has_email_set_subscribed.
    apply find_some in Hfind. exact (proj2 Hfind).
Qed.

(** With the unique index and a store that does not fail, subscribing an
    address in normal form that is not stored inserts one record with
    [subscribed = true] and returns it under the ObjectId string;
    subscribing it again updates that record in place and returns it as it
    is stored, under its uuid; the store then has exactly one record with
    this email. *)
Lemma newsletter_subscribe_twice (email : string) (w : World) :
  validate_email email = Valid email ->
  (forall k, fault_at k = None) ->
  newsletter_email_unique (db w) = true ->
  existsb (has_email email) (newsletter_subscribers (db w)) = false ->
  exists r1 w1 r2 w2 oid stored,
    Database.subscribe_newsletter validate_email utcnow_at fault_at email w = (Ok r1, w1)
    /\ newsletter_subscribers (db w1)
       = (newsletter_subscribers (db w) ++ [mkDoc oid stored])%list
    /\ NewsletterSubscriber.email stored = email
    /\ NewsletterSubscriber.subscribed stored = true
    /\ NewsletterSubscriber.subscribed r1 = true
    /\ NewsletterSubscriber.id r1 = ObjectIdStr oid
    /\ email_count email (db w1) = 1
    /\ Database.subscribe_newsletter validate_email utcnow_at fault_at email w1 = (Ok r2, w2)
    /\ newsletter_subscribers (db w2)
       = (newsletter_subscribers (db w) ++ [mkDoc oid r2])%list
    /\ NewsletterSubscriber.id r2 = NewsletterSubscriber.id stored
    /\ NewsletterSubscriber.id r2 = UuidStr (uuids_drawn w)
    /\ NewsletterSubscriber.email r2 = email
    /\ NewsletterSubscriber.subscribed r2 = true
    /\ NewsletterSubscriber.created_at r2 = NewsletterSubscriber.created_at stored
    /\ NewsletterSubscriber.updated_at r2
       = bson_datetime (utcnow_at (S (S (clock_reads w1))))
    /\ email_count email (db w2) = 1.
Proof.
  intros Hv Hf Hu Hex.
  pose proof (subscribe_newsletter_fresh email email w Hv (Hf _) Hex) as E1.
  set (stored := bson_subscriber (subscriber_built email w)) in *.
  set (oid := object_ids_drawn w) in *.
  match type of E1 with _ = (_, ?w1') => set (w1 := w1') in * end.
  assert (Hl1 : newsletter_subscribers (db w1)
                = (newsletter_subscribers (db w) ++ [mkDoc oid stored])%list)
    by reflexivity.
  assert (Hme : has_email email (mkDoc oid stored) = true)
    by (unfold has_email; cbn; apply String.eqb_refl).
  assert (Hfind : find (has_email email) (newsletter_subscribers (db w1))
                  = Some (mkDoc oid stored))
    by (rewrite Hl1; apply find_app_last; assumption).
  pose proof (subscribe_newsletter_existing email email w1 _ Hv
                (Hf _) (Hf _) (Hf _) Hu (find_some_existsb _ _ _ Hfind) Hfind)
    as E2.
  cbv zeta in E2.
  match type of E2 with _ = (_, ?w2') => set (w2 := w2') in * end.
  assert (Hl2 : newsletter_subscribers (db w2)
                = (newsletter_subscribers (db w)
                   ++ [Driver.set_subscribed
                         (bson_datetime (utcnow_at (S (S (clock_reads w1)))))
                         (mkDoc oid stored)])%list).
  { subst w2. cbn [db newsletter_subscribers set_newsletter_subscribers].
    rewrite Hl1. apply update_first_app_last; assumption. }
  eexists _, w1, _, w2, oid, stored.
  split; [exact E1 |].
  split; [exact Hl1 |].
  do 4 (split; [reflexivity |]).
  split.
  { unfold email_count. rewrite Hl1, filter_app, (filter_none _ _ Hex).
    cbn [filter app]. rewrite Hme. reflexivity. }
  split; [exact E2 |].
  split; [exact Hl2 |].
  do 6 (split; [reflexivity |]).
  unfold email_count. rewrite Hl2, filter_app, (filter_none _ _ Hex).
  cbn [filter app]. rewrite has_email_set_subscribed, Hme. reflexivity.
Qed.

(** Under the unique index no call of [subscribe_newsletter], failing or
    not, leaves two records with one email. *)
Lemma subscribe_newsletter_keeps_emails_distinct (email : string) (w : World) :
  newsletter_email_unique (db w) = true ->
  Driver.emails_distinct (newsletter_subscribers (db w)) = true ->
  let w' := snd (Database.subscribe_newsletter validate_email utcnow_at fault_at email w) in
  newsletter_email_unique (db w') = true
  /\ Driver.emails_distinct (newsletter_subscribers (db w')) = true.
Proof.
  destruct w as [s u o c k]. cbn [db]. intros Hu Hd. cbv zeta.
  run_newsletter.
  destruct (validate_email email) as [normalised | message]; run_newsletter.
  1: destruct (fault_at k) as [msg |]; run_newsletter;
    [| rewrite Hu; cbn [andb];
       destruct (existsb (has_email normalised) (newsletter_subscribers s)) eqn:Hex;
       run_newsletter; [rewrite duplicate_key_recognized; run_newsletter |]].
  all: repeat
         (match goal with
          | |- context [match fault_at ?n with _ => _ end] =>
              destruct (fault_at n)
          | |- context [if PyStr.contains ?a ?b then _ else _] =>
              destruct (PyStr.contains a b)
          | |- context [match find ?p ?l with _ => _ end] =>
              destruct (find p l)
          end; run_newsletter).
  all: cbn [newsletter_subscribers newsletter_email_unique
            set_newsletter_subscribers];
    split; try assumption;
    first [ rewrite emails_distinct_update_first; assumption
          | apply emails_distinct_app_last; assumption ].
Qed.

(** ** Contacts *)

Ltac run_contacts :=
  cbv beta iota zeta delta
    [bind ret raise try_except get_store put_store uuid4 new_object_id
     Driver.utcnow Driver.db_call
     Driver.contacts_insert_one Driver.contacts_update_one
     Database.new_ContactSubmission Database.create_contact
     Database.update_contact_status
     db uuids_drawn object_ids_drawn clock_reads db_calls fst snd].

(** The contact that [create_contact] builds and stores in the world [w]. *)
Definition contact_built (contact_data : ContactSubmissionCreate.t) (w : World)
    : ContactSubmission.t :=
  {| ContactSubmission.id := UuidStr (uuids_drawn w);
     ContactSubmission.name := ContactSubmissionCreate.name contact_data;
     ContactSubmission.email := ContactSubmissionCreate.email contact_data;
     ContactSubmission.company := ContactSubmissionCreate.company contact_data;
     ContactSubmission.project := ContactSubmissionCreate.project contact_data;
     ContactSubmission.message := ContactSubmissionCreate.message contact_data;
     ContactSubmission.budget := ContactSubmissionCreate.budget contact_data;
     ContactSubmission.status := "new";
     ContactSubmission.created_at := utcnow_at (clock_reads w);
     ContactSubmission.updated_at := utcnow_at (S (clock_reads w)) |}.

Lemma create_contact_run (contact_data : ContactSubmissionCreate.t) (w : World) :
  Database.create_contact utcnow_at fault_at contact_data w
  = match fault_at (db_calls w) with
    | Some msg =>
        (Raise (Error msg),
         {| db := db w;
            uuids_drawn := S (uuids_drawn w);
            object_ids_drawn := S (object_ids_drawn w);
            clock_reads := S (S (clock_reads w));
            db_calls := S (db_calls w) |})
    | None =>
        (Ok (Database.contact_with_id (contact_built contact_data w)
               (ObjectIdStr (object_ids_drawn w))),
         {| db := set_contacts (db w)
                    (contacts (db w)
                     ++ [mkDoc (object_ids_drawn w)
                           (bson_contact (contact_built contact_data w))]);
            uuids_drawn := S (uuids_drawn w);
            object_ids_drawn := S (object_ids_drawn w);
            clock_reads := S (S (clock_reads w));
            db_calls := S (db_calls w) |})
    end.
Proof.
  destruct w as [s u o c k]. run_contacts.
  destruct (fault_at k); reflexivity.
Qed.

(** The id that [create_contact] returns is the ObjectId of the document,
    while the [id] field it stored is the uuid of the model. *)
Lemma create_contact_returned_id (contact_data : ContactSubmissionCreate.t)
    (w : World) :
  fault_at (db_calls w) = None ->
  exists c w' stored,
    Database.create_contact utcnow_at fault_at contact_data w = (Ok c, w')
    /\ contacts (db w') = (contacts (db w) ++ [mkDoc (object_ids_drawn w) stored])%list
    /\ ContactSubmission.id c = ObjectIdStr (object_ids_drawn w)
    /\ ContactSubmission.id stored = UuidStr (uuids_drawn w)
    /\ ContactSubmission.id c <> ContactSubmission.id stored.
Proof.
  intros Hf. rewrite create_contact_run, Hf.
  eexists _, _, _. split; [reflexivity |].
  split; [reflexivity |]. repeat split. discriminate.
Qed.

(** Every stored contact carries a uuid drawn earlier as its [id], and no
    two carry the same one. *)
Definition contacts_ok (w : World) : Prop :=
  Forall (fun d => exists n, ContactSubmission.id (body d) = UuidStr n
                            /\ n < uuids_drawn w)
    (contacts (db w))
  /\ contact_ids_distinct (db w).

Lemma contacts_ok_initial : contacts_ok initial_world.
Proof. split; constructor. Qed.

Lemma create_contact_keeps_contacts_ok (contact_data : ContactSubmissionCreate.t)
    (w : World) :
  contacts_ok w ->
  contacts_ok (snd (Database.create_contact utcnow_at fault_at contact_data w)).
Proof.
  intros [Hall Hnd]. rewrite create_contact_run.
  assert (Hall' : Forall (fun d => exists n,
                              ContactSubmission.id (body d) = UuidStr n
                              /\ n < S (uuids_drawn w)) (contacts (db w))).
  { eapply Forall_impl; [| exact Hall].
    cbn. intros d (n & Hn & Hlt). exists n. split; [exact Hn | lia]. }
  destruct (fault_at (db_calls w)); cbn [snd]; split; cbn [db uuids_drawn];
    try assumption.
  - cbn [contacts set_contacts]. apply Forall_app. split; [exact Hall' |].
    constructor; [| constructor]. exists (uuids_drawn w). split; [reflexivity | lia].
  - unfold contact_ids_distinct in *. cbn [contacts set_contacts].
    rewrite map_app. cbn [map body].
    apply NoDup_app; [exact Hnd | repeat constructor; intros [] |].
    intros i Hi [<- | []].
    apply in_map_iff in Hi as (d & Hd & Hin).
    rewrite Forall_forall in Hall. destruct (Hall d Hin) as (n & Hn & Hlt).
    rewrite Hn in Hd. cbn in Hd. injection Hd as ->. lia.
Qed.

Lemma update_contact_status_run (contact_id : ident) (status : string) (w : World) :
  Database.update_contact_status utcnow_at fault_at contact_id status w
  = let now := bson_datetime (utcnow_at (clock_reads w)) in
    match fault_at (db_calls w) with
    | Some msg =>
        (Raise (Error msg),
         {| db := db w; uuids_drawn := uuids_drawn w;
            object_ids_drawn := object_ids_drawn w;
            clock_reads := S (clock_reads w);
            db_calls := S (db_calls w) |})
    | None =>
        (Ok (match find (has_id contact_id) (contacts (db w)) with
             | Some d =>
                 negb (String.eqb (ContactSubmission.status (body d)) status
                       && Z.eqb (ContactSubmission.updated_at (body d)) now)
             | None => false
             end),
         {| db := set_contacts (db w)
                    (update_first (has_id contact_id)
                       (Driver.set_contact_status status now) (contacts (db w)));
            uuids_drawn := uuids_drawn w;
            object_ids_drawn := object_ids_drawn w;
            clock_reads := S (clock_reads w);
            db_calls := S (db_calls w) |})
    end.
Proof.
  destruct w as [s u o c k]. run_contacts.
  destruct (fault_at k); [reflexivity |].
  destruct (find (has_id contact_id) (contacts s)) as [d |]; [| reflexivity].
  destruct (String.eqb (ContactSubmission.status (body d)) status
            && Z.eqb (ContactSubmission.updated_at (body d))
                 (bson_datetime (utcnow_at c)));
    reflexivity.
Qed.

Lemma map_id_update_first (contact_id : ident) (status : string) (now : datetime)
    (l : list (Doc ContactSubmission.t)) :
  map (fun d => ContactSubmission.id (body d))
    (update_first (has_id contact_id) (Driver.set_contact_status status now) l)
  = map (fun d => ContactSubmission.id (body d)) l.
Proof.
  induction l as [| x l IH]; cbn; [reflexivity |].
  destruct (has_id contact_id x); cbn; [reflexivity | rewrite IH; reflexivity].
Qed.

Lemma update_contact_status_keeps_contacts_ok (contact_id : ident)
    (status : string) (w : World) :
  contacts_ok w ->
  contacts_ok
    (snd (Database.update_contact_status utcnow_at fault_at contact_id status w)).
Proof.
  intros [Hall Hnd]. rewrite update_contact_status_run. cbv zeta.
  destruct (fault_at (db_calls w)); cbn [snd]; split;
    cbn [db uuids_drawn contacts set_contacts]; try assumption.
  - rewrite Forall_forall in *. intros d Hd.
    assert (Hin : In (ContactSubmission.id (body d))
                    (map (fun d => ContactSubmission.id (body d)) (contacts (db w)))).
    { rewrite <- (map_id_update_first contact_id status
                   (bson_datetime (utcnow_at (clock_reads w)))).
      exact (in_map (fun d => ContactSubmission.id (body d)) _ _ Hd). }
    apply in_map_iff in Hin as (d0 & Hid & Hin0). cbv beta in Hid.
    destruct (Hall d0 Hin0) as (n & Hn & Hlt).
    exists n. split; [rewrite <- Hid; exact Hn | exact Hlt].
  - unfold contact_ids_distinct in *. cbn [contacts set_contacts].
    rewrite map_id_update_first. exact Hnd.
Qed.

End Store.

(** * The operations on concrete worlds *)

(** A clock that advances by one microsecond per reading, one that stands
    still, a store that never fails and one that is unreachable. *)
Definition ticking_clock : nat -> datetime := Z.of_nat.

(** A validator that refuses a string without an at sign and lower-cases
    what follows the first one. *)
Fixpoint lower_after_at (s : string) : option string :=
  match s with
  | EmptyString => None
  | String c rest =>
      if Ascii.eqb c "@" then Some (String c (PyStr.lower rest))
      else option_map (String c) (lower_after_at rest)
  end.

Definition lower_domain (s : string) : validated :=
  match lower_after_at s with
  | Some normalised => Valid normalised
  | None => Invalid "value is not a valid email address"
  end.
Definition frozen_clock : nat -> datetime := fun _ => 0%Z.
Definition no_fault : nat -> option string := fun _ => None.
Definition unreachable : nat -> option string :=
  fun _ => Some "ServerSelectionTimeoutError: connection refused".

(** The world after [connect] built the indexes of an empty store. *)
Definition connected_world : World :=
  snd (Database.create_indexes no_fault initial_world).

Definition sample_contact : ContactSubmissionCreate.t :=
  {| ContactSubmissionCreate.name := "Ada";
     ContactSubmissionCreate.email := "ada@example.com";
     ContactSubmissionCreate.company := None;
     ContactSubmissionCreate.project := None;
     ContactSubmissionCreate.message := "Hello";
     ContactSubmissionCreate.budget := None |}.

Definition sample_inquiry : ProjectInquiryCreate.t :=
  {| ProjectInquiryCreate.name := "Ada";
     ProjectInquiryCreate.email := "ada@example.com";
     ProjectInquiryCreate.project_type := "standard";
     ProjectInquiryCreate.include_domain := true;
     ProjectInquiryCreate.include_database := false;
     ProjectInquiryCreate.additional_details := None |}.

(** [n] contact forms submitted one after the other. *)
Fixpoint submit_contacts (n : nat) (w : World) : World :=
  match n with
  | O => w
  | S n' =>
      snd (Database.create_contact ticking_clock no_fault sample_contact
             (submit_contacts n' w))
  end.

Example connected_world_has_index :
  newsletter_email_unique (db connected_world) = true.
Proof. reflexivity. Qed.

Example create_contact_reads_clock_twice :
  exists c w',
    Database.create_contact ticking_clock no_fault sample_contact initial_world
    = (Ok c, w')
    /\ ContactSubmission.status c = "new"
    /\ ContactSubmission.created_at c = 0%Z
    /\ ContactSubmission.updated_at c = 1%Z.
Proof. eexists _, _. split; [reflexivity |]. repeat split. Qed.

(** C9, at the first contact of an empty store: [create_contact] returns a
    record whose id is the ObjectId string, while the [id] field of the
    record it persisted is the uuid; [update_contact_status] with the
    returned id therefore finds nothing, and finds the record under the
    persisted id. *)
Theorem create_contact_id_not_persisted :
  exists c w',
    Database.create_contact frozen_clock no_fault sample_contact initial_world
    = (Ok c, w')
    /\ ContactSubmission.id c = ObjectIdStr 0
    /\ map (fun d => ContactSubmission.id (body d)) (contacts (db w')) = [UuidStr 0]
    /\ ContactSubmission.id c <> UuidStr 0
    /\ fst (Database.update_contact_status frozen_clock no_fault
              (ContactSubmission.id c) "contacted" w') = Ok false
    /\ fst (Database.update_contact_status frozen_clock no_fault
              (UuidStr 0) "contacted" w') = Ok true.
Proof.
  eexists _, _. split; [reflexivity |].
  repeat split; try reflexivity. discriminate.
Qed.

Example newsletter_store_error_is_swallowed :
  let data := {| NewsletterSignupCreate.email := "ada@example.com" |} in
  fst (Database.subscribe_newsletter lower_domain ticking_clock unreachable
         "ada@example.com" connected_world)
  = Raise (Error "ServerSelectionTimeoutError: connection refused")
  /\ fst (Server.subscribe_newsletter lower_domain ticking_clock unreachable data connected_world)
     = Ok {| NewsletterResponse.success := true;
             NewsletterResponse.message :=
               "Thank you for your interest! We'll keep you updated." |}.
Proof. split; reflexivity. Qed.

Example stats_of_unreachable_store :
  fst (Server.get_company_stats unreachable initial_world)
  = Ok (Stats.mk 100 100 14 0 0 0).
Proof. reflexivity. Qed.

(** C3, at the first address of a connected, empty store: the first call
    of [subscribe_newsletter] returns the record under the ObjectId string,
    the second call returns the updated record under the uuid that is
    stored as its [id]; a single record is stored, but the id that the
    first call handed out is not the one the second call returns. *)
Theorem newsletter_second_call_returns_other_id :
  exists r1 w1 r2 w2,
    Database.subscribe_newsletter lower_domain ticking_clock no_fault
      "ada@example.com" connected_world = (Ok r1, w1)
    /\ Database.subscribe_newsletter lower_domain ticking_clock no_fault
         "ada@example.com" w1 = (Ok r2, w2)
    /\ NewsletterSubscriber.id r1 = ObjectIdStr 0
    /\ NewsletterSubscriber.id r2 = UuidStr 0
    /\ NewsletterSubscriber.id r2 <> NewsletterSubscriber.id r1
    /\ NewsletterSubscriber.subscribed r2 = true
    /\ map (fun d => NewsletterSubscriber.id (body d))
         (newsletter_subscribers (db w2)) = [UuidStr 0]
    /\ email_count "ada@example.com" (db w2) = 1.
Proof.
  eexists _, _, _, _.
  split; [vm_compute; reflexivity |].
  split; [vm_compute; reflexivity |].
  do 2 (split; [reflexivity |]).
  split; [discriminate |].
  repeat split; reflexivity.
Qed.

(** The update and the read back filter on the address as given, while
    the insert stores its normal form: with an address that differs from
    its normal form the second call finds no record and raises. *)
Example newsletter_raw_address_second_call :
  exists r1 w1,
    Database.subscribe_newsletter lower_domain ticking_clock no_fault
      "Ada@EXAMPLE.com" connected_world = (Ok r1, w1)
    /\ NewsletterSubscriber.email r1 = "Ada@example.com"
    /\ fst (Database.subscribe_newsletter lower_domain ticking_clock no_fault
              "Ada@EXAMPLE.com" w1)
       = Raise (Error "argument after ** must be a mapping, not NoneType")
    /\ fst (Database.subscribe_newsletter lower_domain ticking_clock no_fault
              "not an address" connected_world)
       = Raise (Error "value is not a valid email address").
Proof.
  eexists _, _.
  split; [vm_compute; reflexivity |].
  repeat split; vm_compute; reflexivity.
Qed.

Lemma inquiry_estimated_cost_witness :
  exists resp w',
    Server.submit_project_inquiry ticking_clock no_fault sample_inquiry initial_world
    = (Ok resp, w')
    /\ ProjectInquiryResponse.estimated_cost resp = 89.98%float.
Proof.
  destruct (Server.submit_project_inquiry ticking_clock no_fault sample_inquiry
              initial_world) as [[resp | e] w'] eqn:E.
  - exists resp, w'. split; [reflexivity |].
    apply (inquiry_estimated_cost ticking_clock no_fault sample_inquiry
             initial_world resp w' E); reflexivity.
  - vm_compute in E. discriminate E.
Defined.

Lemma newsletter_subscribe_twice_witness :
  exists r2 w1 w2,
    Database.subscribe_newsletter lower_domain ticking_clock no_fault "ada@example.com" w1
    = (Ok r2, w2)
    /\ NewsletterSubscriber.subscribed r2 = true
    /\ email_count "ada@example.com" (db w2) = 1.
Proof.
  destruct (newsletter_subscribe_twice lower_domain ticking_clock no_fault
              "ada@example.com" connected_world eq_refl (fun _ => eq_refl)
              eq_refl eq_refl)
    as (r1 & w1 & r2 & w2 & oid & stored & H).
  exists r2, w1, w2. repeat split; apply H.
Defined.

Lemma contacts_pagination_witness :
  let w := submit_contacts 12 initial_world in
  exists p1 p2 p3,
    fst (Database.get_contacts no_fault 0 10 w) = Ok p1
    /\ fst (Database.get_contacts no_fault 10 10 w) = Ok p2
    /\ fst (Database.get_contacts no_fault 0 20 w) = Ok p3
    /\ (p1 ++ p2)%list = p3
    /\ List.length p1 = 10 /\ List.length p2 = 2.
Proof.
  intros w.
  destruct (contacts_pagination no_fault w w w eq_refl eq_refl eq_refl eq_refl eq_refl)
    as (p1 & p2 & p3 & H1 & H2 & H3 & Happ & _).
  - unfold contact_ids_distinct. vm_compute.
    repeat (constructor; [cbn; intuition discriminate |]). constructor.
  - exists p1, p2, p3. repeat split; try assumption.
    + vm_compute in H1. injection H1 as <-. reflexivity.
    + vm_compute in H2. injection H2 as <-. reflexivity.
Defined.

(** * Further properties of the pricing engine *)

(** Every quote lies between 49.99 and 119.97, and choosing an add-on
    always raises it. *)
Theorem quote_bounds_and_addons (t : string) (d b : bool) :
  PrimFloat.leb 49.99 (calculate_project_cost t d b) = true
  /\ PrimFloat.leb (calculate_project_cost t d b) 119.97 = true
  /\ PrimFloat.ltb (calculate_project_cost t false b)
       (calculate_project_cost t true b) = true
  /\ PrimFloat.ltb (calculate_project_cost t d false)
       (calculate_project_cost t d true) = true.
Proof.
  unfold calculate_project_cost, base_prices_get.
  destruct (String.eqb t "basic"), (String.eqb t "standard"), d, b;
    vm_compute; repeat split; reflexivity.
Qed.

(** The sum, in the order of the list, of the base cost and the costs of
    the listed add-ons. *)
Definition breakdown_total (s : Summary.t) : float :=
  PyFloat.round2
    (fold_left PrimFloat.add (map Addon.cost (Summary.addons s))
       (Summary.base_cost s)).

(** For a valid type the breakdown of the summary adds up to its total, and
    each listed add-on contributes four feature lines. *)
Theorem summary_breakdown_adds_up (t : string) (d b : bool) :
  validate_project_type t = true ->
  let s := generate_project_summary t d b in
  Summary.total_cost s = breakdown_total s
  /\ List.length (Summary.features s)
     = List.length (get_project_features t) + 4 * List.length (Summary.addons s)
  /\ List.length (Summary.addons s)
     = (if d then 1 else 0) + (if b then 1 else 0).
Proof.
  intros Hv s. subst s.
  apply validate_project_type_iff in Hv as [-> | ->];
    destruct d, b; vm_compute; repeat split; reflexivity.
Qed.

Lemma summary_breakdown_adds_up_witness :
  Summary.total_cost (generate_project_summary "standard" true true)
  = breakdown_total (generate_project_summary "standard" true true).
Proof.
  apply (summary_breakdown_adds_up "standard" true true). reflexivity.
Defined.

(** * Further properties of the record store *)

Section StoreOperations.

Variable utcnow_at : nat -> datetime.
Variable fault_at : nat -> option string.

Ltac run_indexes :=
  cbv beta iota zeta delta
    [bind ret raise try_except get_store put_store
     Driver.db_call Driver.newsletter_subscribers_create_unique_index
     Driver.create_plain_index Database.create_indexes
     db uuids_drawn object_ids_drawn clock_reads db_calls fst snd].

Lemma set_contacts_same (s : Store) : set_contacts s (contacts s) = s.
Proof. destruct s; reflexivity. Qed.

Lemma set_newsletter_subscribers_same (s : Store) :
  set_newsletter_subscribers s (newsletter_subscribers s) = s.
Proof. destruct s; reflexivity. Qed.

(** ** [create_indexes] *)

(** Whether the request that builds the unique index goes through. *)
Definition unique_index_built (w : World) : bool :=
  match fault_at (db_calls w) with
  | Some _ => false
  | None => Driver.emails_distinct (newsletter_subscribers (db w))
  end.

(** [create_indexes] never raises and never touches a record; the unique
    index exists afterwards exactly when it existed before or its creation
    went through, whatever happens to the four other indexes. *)
Theorem create_indexes_never_raises (w : World) :
  fst (Database.create_indexes fault_at w) = Ok tt
  /\ contacts (db (snd (Database.create_indexes fault_at w))) = contacts (db w)
  /\ project_inquiries (db (snd (Database.create_indexes fault_at w)))
     = project_inquiries (db w)
  /\ newsletter_subscribers (db (snd (Database.create_indexes fault_at w)))
     = newsletter_subscribers (db w)
  /\ newsletter_email_unique (db (snd (Database.create_indexes fault_at w)))
     = newsletter_email_unique (db w) || unique_index_built w.
Proof.
  destruct w as [s u o c k]. unfold unique_index_built. run_indexes.
  destruct (fault_at k).
  { repeat split; try reflexivity. rewrite orb_false_r. reflexivity. }
  run_indexes.
  destruct (Driver.emails_distinct (newsletter_subscribers s)).
  2:{ repeat split; try reflexivity. rewrite orb_false_r. reflexivity. }
  run_indexes.
  repeat (match goal with
          | |- context [match fault_at ?n with _ => _ end] =>
              destruct (fault_at n)
          end; run_indexes).
  all: cbn [contacts project_inquiries newsletter_subscribers
            newsletter_email_unique set_newsletter_email_unique];
    rewrite orb_true_r; repeat split; reflexivity.
Qed.

(** ** [update_contact_status] *)

(** With no contact under the id, [update_contact_status] answers [False]
    without an error and leaves the store as it was. *)
Theorem update_contact_status_no_match (contact_id : ident) (status : string)
    (w : World) :
  fault_at (db_calls w) = None ->
  existsb (has_id contact_id) (contacts (db w)) = false ->
  fst (Database.update_contact_status utcnow_at fault_at contact_id status w)
  = Ok false
  /\ db (snd (Database.update_contact_status utcnow_at fault_at contact_id status w))
     = db w.
Proof.
  intros Hf Hex. rewrite update_contact_status_run. cbv zeta. rewrite Hf.
  cbn [fst snd db].
  rewrite (existsb_false_find _ _ Hex), (update_first_none _ _ _ Hex),
    set_contacts_same.
  split; reflexivity.
Qed.

(** With a contact under the id whose status differs from the new one,
    [update_contact_status] answers [True]; that contact then has the new
    status and, as [updated_at], the instant of the call shortened to
    milliseconds, and keeps its other fields; the contacts under other ids,
    the ids and the number of contacts stay as they were. *)
Theorem update_contact_status_match (contact_id : ident) (status : string)
    (w : World) (d : Doc ContactSubmission.t) :
  fault_at (db_calls w) = None ->
  find (has_id contact_id) (contacts (db w)) = Some d ->
  String.eqb (ContactSubmission.status (body d)) status = false ->
  let r := Database.update_contact_status utcnow_at fault_at contact_id status w in
  let d' :=
    Driver.set_contact_status status (bson_datetime (utcnow_at (clock_reads w))) d in
  fst r = Ok true
  /\ find (has_id contact_id) (contacts (db (snd r))) = Some d'
  /\ ContactSubmission.status (body d') = status
  /\ ContactSubmission.updated_at (body d')
     = bson_datetime (utcnow_at (clock_reads w))
  /\ (ContactSubmission.updated_at (body d') <= utcnow_at (clock_reads w)
      < ContactSubmission.updated_at (body d') + 1000)%Z
  /\ ContactSubmission.created_at (body d') = ContactSubmission.created_at (body d)
  /\ ContactSubmission.message (body d') = ContactSubmission.message (body d)
  /\ map (fun x => ContactSubmission.id (body x)) (contacts (db (snd r)))
     = map (fun x => ContactSubmission.id (body x)) (contacts (db w))
  /\ (forall x, In x (contacts (db w)) -> has_id contact_id x = false ->
                In x (contacts (db (snd r)))).
Proof.
  intros Hf Hfind Hst r d'. subst r d'.
  rewrite update_contact_status_run. cbv zeta. rewrite Hf, Hfind, Hst.
  cbn [fst snd db contacts set_contacts andb negb].
  split; [reflexivity |].
  split.
  { apply find_update_first; [exact Hfind |].
    apply find_some in Hfind. exact (proj2 Hfind). }
  do 2 (split; [reflexivity |]).
  split.
  { cbn [body Driver.set_contact_status ContactSubmission.updated_at].
    unfold bson_datetime.
    pose proof (Z.mod_pos_bound (utcnow_at (clock_reads w)) 1000 ltac:(lia)).
    pose proof (Z.div_mod (utcnow_at (clock_reads w)) 1000 ltac:(lia)).
    lia. }
  do 2 (split; [reflexivity |]).
  split; [apply map_id_update_first |].
  intros x Hin Hx. clear Hfind Hst.
  induction (contacts (db w)) as [| y l IH]; [contradiction |].
  cbn [update_first]. destruct (has_id contact_id y) eqn:Hy.
  - destruct Hin as [-> | Hin]; [congruence | right; exact Hin].
  - destruct Hin as [-> | Hin]; [left; reflexivity | right; exact (IH Hin)].
Qed.

End StoreOperations.

Lemma In_update_first_other {A} (p : A -> bool) (f : A -> A) (l : list A) (x : A) :
  In x l -> p x = false -> In x (update_first p f l).
Proof.
  intros Hin Hx. induction l as [| y l IH]; [contradiction |].
  cbn [update_first]. destruct (p y) eqn:Hy.
  - destruct Hin as [-> | Hin]; [congruence | right; exact Hin].
  - destruct Hin as [-> | Hin]; [left; reflexivity | right; exact (IH Hin)].
Qed.

Lemma map_oid_update_first (e : string) (now : datetime)
    (l : list (Doc NewsletterSubscriber.t)) :
  map _id (update_first (has_email e) (Driver.set_subscribed now) l) = map _id l.
Proof.
  induction l as [| x l IH]; cbn; [reflexivity |].
  destruct (has_email e x); cbn; [reflexivity | rewrite IH; reflexivity].
Qed.

Lemma find_update_first_inv {A} (p : A -> bool) (f : A -> A) (l : list A) (d : A) :
  (forall x, p (f x) = p x) ->
  find p (update_first p f l) = Some d ->
  exists d0, find p l = Some d0 /\ d = f d0.
Proof.
  intros Hp. induction l as [| x l IH]; cbn; [discriminate |].
  destruct (p x) eqn:Hx; cbn.
  - rewrite Hp, Hx. intros H. injection H as <-. exists x. split; reflexivity.
  - rewrite Hx. exact IH.
Qed.

Section Newsletter.

Variable validate_email : string -> validated.
Variable utcnow_at : nat -> datetime.
Variable fault_at : nat -> option string.

Ltac run_subscribe :=
  cbv beta iota zeta delta
    [bind ret raise try_except get_store put_store uuid4 new_object_id
     Driver.utcnow Driver.db_call
     Driver.newsletter_subscribers_insert_one
     Driver.newsletter_subscribers_update_one
     Driver.newsletter_subscribers_find_one
     Driver.newsletter_subscribers_find_sorted
     Database.new_NewsletterSubscriber Database.subscribe_newsletter
     Database.get_newsletter_subscribers
     db uuids_drawn object_ids_drawn clock_reads db_calls fst snd
     NewsletterSubscriber.email exn_str].

(** An error of the insert, for an address that passed validation, that
    does not speak of a duplicate key is raised again as it is, and nothing
    is stored. *)
Theorem subscribe_newsletter_reraises (email normalised msg : string) (w : World) :
  validate_email email = Valid normalised ->
  fault_at (db_calls w) = Some msg ->
  PyStr.contains "duplicate key" (PyStr.lower msg) = false ->
  fst (Database.subscribe_newsletter validate_email utcnow_at fault_at email w) = Raise (Error msg)
  /\ db (snd (Database.subscribe_newsletter validate_email utcnow_at fault_at email w)) = db w.
Proof.
  destruct w as [s u o c k]. cbn [db db_calls]. intros Hv Hf Hc.
  run_subscribe. rewrite Hv. run_subscribe. rewrite Hf. run_subscribe.
  rewrite Hc. split; reflexivity.
Qed.

(** An error of the insert whose text contains "duplicate key" while no
    record has the email sends [subscribe_newsletter] down the update path:
    nothing matches, [find_one] gives [None], and building the model from
    it raises; nothing is stored. *)
Theorem subscribe_newsletter_misread_error (email normalised msg : string)
    (w : World) :
  validate_email email = Valid normalised ->
  fault_at (db_calls w) = Some msg ->
  PyStr.contains "duplicate key" (PyStr.lower msg) = true ->
  fault_at (S (db_calls w)) = None ->
  fault_at (S (S (db_calls w))) = None ->
  existsb (has_email email) (newsletter_subscribers (db w)) = false ->
  fst (Database.subscribe_newsletter validate_email utcnow_at fault_at email w)
  = Raise (Error "argument after ** must be a mapping, not NoneType")
  /\ db (snd (Database.subscribe_newsletter validate_email utcnow_at fault_at email w)) = db w.
Proof.
  destruct w as [s u o c k]. cbn [db db_calls]. intros Hv Hf Hc Hf2 Hf3 Hex.
  run_subscribe. rewrite Hv. run_subscribe. rewrite Hf. run_subscribe.
  rewrite Hc.
  run_subscribe. rewrite Hf2. run_subscribe. rewrite Hf3.
  cbn [newsletter_subscribers set_newsletter_subscribers].
  rewrite (update_first_none _ _ _ Hex), (existsb_false_find _ _ Hex),
    set_newsletter_subscribers_same.
  split; reflexivity.
Qed.

(** With the unique index, subscribing an address in normal form that is
    stored, subscribed or not, returns its record as read back from the
    store: [subscribed = true] and, as [updated_at], the instant of the
    update shortened to milliseconds; the id, email and creation date of the
    record, the [_id]s of the collection and the records of other emails
    stay. *)
Theorem newsletter_resubscribe_reactivates (email : string) (w : World)
    (d : Doc NewsletterSubscriber.t) :
  validate_email email = Valid email ->
  fault_at (db_calls w) = None ->
  fault_at (S (db_calls w)) = None ->
  fault_at (S (S (db_calls w))) = None ->
  newsletter_email_unique (db w) = true ->
  find (has_email email) (newsletter_subscribers (db w)) = Some d ->
  exists r w',
    Database.subscribe_newsletter validate_email utcnow_at fault_at email w = (Ok r, w')
    /\ NewsletterSubscriber.subscribed r = true
    /\ NewsletterSubscriber.updated_at r
       = bson_datetime (utcnow_at (S (S (clock_reads w))))
    /\ NewsletterSubscriber.id r = NewsletterSubscriber.id (body d)
    /\ NewsletterSubscriber.email r = email
    /\ NewsletterSubscriber.created_at r = NewsletterSubscriber.created_at (body d)
    /\ find (has_email email) (newsletter_subscribers (db w'))
       = Some (mkDoc (_id d) r)
    /\ map _id (newsletter_subscribers (db w')) = map _id (newsletter_subscribers (db w))
    /\ (forall x, In x (newsletter_subscribers (db w)) -> has_email email x = false ->
                  In x (newsletter_subscribers (db w'))).
Proof.
  intros Hv Hf1 Hf2 Hf3 Hu Hfind.
  pose proof (subscribe_newsletter_existing validate_email utcnow_at fault_at
                email email w d Hv Hf1 Hf2 Hf3 Hu
                (find_some_existsb _ _ _ Hfind) Hfind) as E.
  cbv zeta in E. rewrite E. eexists _, _. split; [reflexivity |].
  do 3 (split; [reflexivity |]).
  split.
  { pose proof (find_some _ _ Hfind) as [_ He].
    apply String.eqb_eq in He. exact He. }
  split; [reflexivity |].
  cbn [db newsletter_subscribers set_newsletter_subscribers].
  split.
  { apply (find_update_first _
             (Driver.set_subscribed
                (bson_datetime (utcnow_at (S (S (clock_reads w)))))) _ _ Hfind).
    rewrite has_email_set_subscribed.
    apply find_some in Hfind. exact (proj2 Hfind). }
  split; [apply map_oid_update_first |].
  intros x Hin Hx. apply In_update_first_other; assumption.
Qed.

Lemma subscribe_newsletter_no_index (email normalised : string) (w : World) :
  validate_email email = Valid normalised ->
  fault_at (db_calls w) = None ->
  newsletter_email_unique (db w) = false ->
  Database.subscribe_newsletter validate_email utcnow_at fault_at email w
  = (Ok (Database.subscriber_with_id (subscriber_built utcnow_at normalised w)
           (ObjectIdStr (object_ids_drawn w))),
     {| db := set_newsletter_subscribers (db w)
                (newsletter_subscribers (db w)
                 ++ [mkDoc (object_ids_drawn w)
                       (bson_subscriber (subscriber_built utcnow_at normalised w))]);
        uuids_drawn := S (uuids_drawn w);
        object_ids_drawn := S (object_ids_drawn w);
        clock_reads := S (S (clock_reads w));
        db_calls := S (db_calls w) |}).
Proof.
  destruct w as [s u o c k]. cbn [db db_calls]. intros Hv Hf Hu.
  run_subscribe. rewrite Hv. run_subscribe. rewrite Hf. run_subscribe.
  rewrite Hu. reflexivity.
Qed.

(** Without the unique index, which [create_indexes] may fail to build
    without saying so, each call inserts: two subscriptions of one valid
    address leave two more records with its normal form, returned under
    two different ids. *)
Theorem subscribe_twice_without_index (email normalised : string) (w : World) :
  validate_email email = Valid normalised ->
  (forall k, fault_at k = None) ->
  newsletter_email_unique (db w) = false ->
  exists r1 w1 r2 w2,
    Database.subscribe_newsletter validate_email utcnow_at fault_at email w = (Ok r1, w1)
    /\ Database.subscribe_newsletter validate_email utcnow_at fault_at email w1 = (Ok r2, w2)
    /\ NewsletterSubscriber.email r1 = normalised
    /\ NewsletterSubscriber.email r2 = normalised
    /\ NewsletterSubscriber.id r1 <> NewsletterSubscriber.id r2
    /\ email_count normalised (db w2) = email_count normalised (db w) + 2.
Proof.
  intros Hv Hf Hu.
  pose proof (subscribe_newsletter_no_index email normalised w Hv (Hf _) Hu) as E1.
  match type of E1 with
  | _ = (Ok ?r, ?w') => set (r1 := r) in *; set (w1 := w') in *
  end.
  assert (Hu1 : newsletter_email_unique (db w1) = false) by exact Hu.
  pose proof (subscribe_newsletter_no_index email normalised w1 Hv (Hf _) Hu1)
    as E2.
  eexists r1, w1, _, _. split; [exact E1 |]. split; [exact E2 |].
  do 2 (split; [reflexivity |]).
  split.
  - cbn. intros H. injection H as H. lia.
  - unfold email_count.
    cbn [db newsletter_subscribers set_newsletter_subscribers w1].
    rewrite !filter_app, !length_app. cbn [filter].
    unfold has_email at 2 3.
    cbn [body NewsletterSubscriber.email subscriber_built bson_subscriber].
    rewrite String.eqb_refl. cbn. lia.
Qed.

End Newsletter.

Section NewsletterFrame.

Variable validate_email : string -> validated.
Variable utcnow_at : nat -> datetime.
Variable fault_at : nat -> option string.

Ltac run_subscribe :=
  cbv beta iota zeta delta
    [bind ret raise try_except get_store put_store uuid4 new_object_id
     Driver.utcnow Driver.db_call
     Driver.newsletter_subscribers_insert_one
     Driver.newsletter_subscribers_update_one
     Driver.newsletter_subscribers_find_one
     Database.new_NewsletterSubscriber Database.subscribe_newsletter
     db uuids_drawn object_ids_drawn clock_reads db_calls fst snd
     NewsletterSubscriber.email exn_str].

Ltac step_subscribe :=
  match goal with
  | |- context [match validate_email ?e with _ => _ end] =>
      let E := fresh "Evalid" in destruct (validate_email e) eqn:E
  | |- context [match fault_at ?n with _ => _ end] => destruct (fault_at n)
  | |- context [if PyStr.contains ?a ?b then _ else _] =>
      destruct (PyStr.contains a b)
  | |- context [if ?f && existsb ?p ?l then _ else _] =>
      destruct (f && existsb p l)
  | |- context [match find ?p ?l with _ => _ end] => destruct (find p l)
  end.

(** [subscribe_newsletter], failing or not, never removes a subscriber,
    never changes an email or an [_id], adds at most one record, and that
    one with the normal form of the address given; contacts, inquiries and
    the index are left alone. *)
Theorem subscribe_newsletter_never_removes (email : string) (w : World) :
  let w' := snd (Database.subscribe_newsletter validate_email utcnow_at fault_at email w) in
  contacts (db w') = contacts (db w)
  /\ project_inquiries (db w') = project_inquiries (db w)
  /\ newsletter_email_unique (db w') = newsletter_email_unique (db w)
  /\ (map _id (newsletter_subscribers (db w'))
      = map _id (newsletter_subscribers (db w))
      \/ map _id (newsletter_subscribers (db w'))
         = (map _id (newsletter_subscribers (db w)) ++ [object_ids_drawn w])%list)
  /\ (map (fun d => NewsletterSubscriber.email (body d))
        (newsletter_subscribers (db w'))
      = map (fun d => NewsletterSubscriber.email (body d))
          (newsletter_subscribers (db w))
      \/ exists normalised,
           validate_email email = Valid normalised
           /\ map (fun d => NewsletterSubscriber.email (body d))
                (newsletter_subscribers (db w'))
              = (map (fun d => NewsletterSubscriber.email (body d))
                   (newsletter_subscribers (db w)) ++ [normalised])%list).
Proof.
  destruct w as [s u o c k]. cbv zeta. run_subscribe.
  repeat (step_subscribe; run_subscribe).
  all: cbn [contacts project_inquiries newsletter_subscribers
            newsletter_email_unique set_newsletter_subscribers];
    do 3 (split; [reflexivity |]); split;
    first [ left; reflexivity
          | left; apply map_oid_update_first
          | left; apply map_email_update_first
          | right; rewrite map_app; reflexivity
          | right; eexists; split; [reflexivity |];
            rewrite map_app; reflexivity ].
Qed.

End NewsletterFrame.

(** * Further properties of the listings *)

Lemma sorted_map {A B} (f : A -> B) (key : B -> Z) (l : list A) :
  StronglySorted (desc (fun a => key (f a))) l ->
  StronglySorted (desc key) (map f l).
Proof.
  induction 1 as [| a l Hs IH Hall]; cbn; constructor; [exact IH |].
  rewrite Forall_forall in *. intros b Hb.
  apply in_map_iff in Hb as (a' & <- & Ha'). exact (Hall a' Ha').
Qed.

(** The inquiries of a store, newest first, as the models the handlers see. *)
Definition sorted_inquiries (s : Store) : list ProjectInquiry.t :=
  map body
    (sort_desc (fun d => ProjectInquiry.created_at (body d)) (project_inquiries s)).

Definition inquiries_page (s : Store) (skip limit : nat) : list ProjectInquiry.t :=
  firstn limit (skipn skip (sorted_inquiries s)).

(** The subscribers a listing reads: the subscribed ones, or all. *)
Definition listed_subscribers (active_only : bool) (s : Store)
    : list (Doc NewsletterSubscriber.t) :=
  if active_only
  then filter (fun d => NewsletterSubscriber.subscribed (body d))
         (newsletter_subscribers s)
  else newsletter_subscribers s.

Section Listings.

Variable utcnow_at : nat -> datetime.
Variable fault_at : nat -> option string.

Lemma get_project_inquiries_run (skip limit : Z) (w : World) :
  (0 <= skip)%Z -> (0 <= limit)%Z -> fault_at (db_calls w) = None ->
  Database.get_project_inquiries fault_at skip limit w
  = (Ok (inquiries_page (db w) (Z.to_nat skip) (Z.to_nat limit)), after_call w).
Proof.
  intros Hs Hl Hf.
  unfold Database.get_project_inquiries, Driver.project_inquiries_find_page.
  apply Z.ltb_ge in Hs, Hl. rewrite Hs, Hl.
  unfold bind, Driver.db_call, get_store, ret. rewrite Hf.
  cbn [db]. rewrite to_list_cursor_limit, <- firstn_map, <- skipn_map.
  reflexivity.
Qed.

(** Pages of inquiries compose from any offset: the page of [n] after
    [skip] followed by the page of [m] after [skip + n] is the page of
    [n + m] after [skip]; pages are sorted newest first and never longer
    than the limit. *)
Theorem project_inquiries_pagination (skip n m : Z) (w1 w2 w3 : World) :
  (0 <= skip)%Z -> (0 <= n)%Z -> (0 <= m)%Z ->
  db w2 = db w1 -> db w3 = db w1 ->
  fault_at (db_calls w1) = None ->
  fault_at (db_calls w2) = None ->
  fault_at (db_calls w3) = None ->
  exists p1 p2 p3,
    fst (Database.get_project_inquiries fault_at skip n w1) = Ok p1
    /\ fst (Database.get_project_inquiries fault_at (skip + n) m w2) = Ok p2
    /\ fst (Database.get_project_inquiries fault_at skip (n + m) w3) = Ok p3
    /\ (p1 ++ p2)%list = p3
    /\ StronglySorted (desc ProjectInquiry.created_at) p3
    /\ List.length p1 <= Z.to_nat n.
Proof.
  intros Hs Hn Hm E2 E3 F1 F2 F3.
  rewrite (get_project_inquiries_run skip n w1),
    (get_project_inquiries_run (skip + n) m w2),
    (get_project_inquiries_run skip (n + m) w3) by (assumption || lia).
  rewrite E2, E3. cbn [fst].
  rewrite !Z2Nat.inj_add by lia.
  eexists _, _, _. do 3 (split; [reflexivity |]).
  unfold inquiries_page. split; [| split].
  - rewrite <- (firstn_then_next (Z.to_nat n) (Z.to_nat m)).
    rewrite (Nat.add_comm (Z.to_nat skip)), <- skipn_skipn. reflexivity.
  - apply sorted_firstn, sorted_skipn. unfold sorted_inquiries.
    apply sorted_map, sort_desc_sorted.
  - rewrite length_firstn. lia.
Qed.

(** A page of contacts holds the records that are left after [skip], up to
    [limit] of them: past the end it is empty, not an error; every record of
    it is a stored one. *)
Theorem contacts_page_size (skip limit : Z) (w : World) :
  (0 <= skip)%Z -> (0 <= limit)%Z -> fault_at (db_calls w) = None ->
  exists page,
    fst (Database.get_contacts fault_at skip limit w) = Ok page
    /\ List.length page
       = Nat.min (Z.to_nat limit)
           (List.length (contacts (db w)) - Z.to_nat skip)
    /\ (forall c, In c page -> In c (map body (contacts (db w))))
    /\ db (snd (Database.get_contacts fault_at skip limit w)) = db w.
Proof.
  intros Hs Hl Hf. rewrite (get_contacts_run fault_at skip limit w Hs Hl Hf).
  eexists. split; [reflexivity |]. unfold contacts_page, sorted_contacts.
  split; [| split; [| reflexivity]].
  - rewrite length_firstn, length_skipn, length_map.
    rewrite (Permutation_length (sort_desc_perm _ _)). reflexivity.
  - intros c Hc. apply In_firstn_of in Hc.
    assert (Hc' : In c (map body
                          (sort_desc (fun d => ContactSubmission.created_at (body d))
                             (contacts (db w))))).
    { rewrite <- (firstn_skipn (Z.to_nat skip)). apply in_or_app. right. exact Hc. }
    apply in_map_iff in Hc' as (d & <- & Hd). apply in_map.
    exact (Permutation_in _ (sort_desc_perm _ _) Hd).
Qed.

(** A negative [skip] or [limit] makes both listings answer 500, before
    any request is sent to the store. *)
Theorem listings_reject_negative (skip limit : Z) (w : World) :
  (skip < 0 \/ limit < 0)%Z ->
  Server.get_contacts fault_at skip limit w
  = (Raise (HTTPException 500 "Failed to retrieve contacts"), w)
  /\ Server.get_project_inquiries fault_at skip limit w
     = (Raise (HTTPException 500 "Failed to retrieve inquiries"), w).
Proof.
  intros H.
  unfold Server.get_contacts, Server.get_project_inquiries,
    Database.get_contacts, Database.get_project_inquiries,
    Driver.contacts_find_page, Driver.project_inquiries_find_page,
    try_except, bind, raise.
  destruct (skip <? 0)%Z eqn:Hs; [split; reflexivity |].
  destruct (limit <? 0)%Z eqn:Hl; [split; reflexivity |].
  apply Z.ltb_ge in Hs, Hl. lia.
Qed.

Lemma newsletter_listing_run (active_only : bool) (w : World) :
  fault_at (db_calls w) = None ->
  Database.get_newsletter_subscribers fault_at active_only w
  = (Ok (map body
           (sort_desc (fun d => NewsletterSubscriber.created_at (body d))
              (listed_subscribers active_only (db w)))),
     after_call w).
Proof.
  intros Hf.
  unfold Database.get_newsletter_subscribers,
    Driver.newsletter_subscribers_find_sorted, bind, Driver.db_call,
    get_store, ret.
  rewrite Hf. reflexivity.
Qed.

(** The listing of subscribers holds exactly the stored records, only the
    subscribed ones when [active_only], sorted newest first; it changes
    nothing in the store. *)
Theorem get_newsletter_subscribers_lists (active_only : bool) (w : World) :
  fault_at (db_calls w) = None ->
  exists l,
    Database.get_newsletter_subscribers fault_at active_only w
    = (Ok l, after_call w)
    /\ Permutation l (map body (listed_subscribers active_only (db w)))
    /\ StronglySorted (desc NewsletterSubscriber.created_at) l
    /\ (active_only = true ->
        Forall (fun r => NewsletterSubscriber.subscribed r = true) l).
Proof.
  intros Hf. rewrite (newsletter_listing_run active_only w Hf).
  eexists. split; [reflexivity |].
  assert (Hp : Permutation
                 (map body
                    (sort_desc (fun d => NewsletterSubscriber.created_at (body d))
                       (listed_subscribers active_only (db w))))
                 (map body (listed_subscribers active_only (db w))))
    by (apply Permutation_map, sort_desc_perm).
  split; [exact Hp |]. split; [apply sorted_map, sort_desc_sorted |].
  intros ->. rewrite Forall_forall. intros r Hr.
  apply (Permutation_in _ Hp) in Hr.
  apply in_map_iff in Hr as (d & <- & Hd).
  unfold listed_subscribers in Hd. apply filter_In in Hd. exact (proj2 Hd).
Qed.

End Listings.

Section RoundTrips.

Variable validate_email : string -> validated.
Variable utcnow_at : nat -> datetime.
Variable fault_at : nat -> option string.

Ltac run_subscribe :=
  cbv beta iota zeta delta
    [bind ret raise try_except get_store put_store uuid4 new_object_id
     Driver.utcnow Driver.db_call
     Driver.newsletter_subscribers_insert_one
     Driver.newsletter_subscribers_update_one
     Driver.newsletter_subscribers_find_one
     Database.new_NewsletterSubscriber Database.subscribe_newsletter
     db uuids_drawn object_ids_drawn clock_reads db_calls fst snd
     NewsletterSubscriber.email exn_str].

Ltac step_subscribe :=
  match goal with
  | |- context [match validate_email ?e with _ => _ end] =>
      let E := fresh "Evalid" in destruct (validate_email e) eqn:E
  | |- context [match fault_at ?n with _ => _ end] => destruct (fault_at n)
  | |- context [if PyStr.contains ?a ?b then _ else _] =>
      destruct (PyStr.contains a b)
  | |- context [if ?f && existsb ?p ?l then _ else _] =>
      destruct (f && existsb p l)
  | |- context [match find ?p ?l with _ => _ end] =>
      let E := fresh "Efind" in destruct (find p l) eqn:E
  end.

(** When [subscribe_newsletter] returns a record, by the insert or by the
    update, the store holds a subscribed record with the email of the
    returned one, which is the normal form of the address given (insert) or
    the address as given (update). *)
Lemma subscribe_newsletter_ok_stored (email : string) (w w1 : World)
    (r : NewsletterSubscriber.t) :
  Database.subscribe_newsletter validate_email utcnow_at fault_at email w = (Ok r, w1) ->
  (exists d,
      In d (newsletter_subscribers (db w1))
      /\ NewsletterSubscriber.email (body d) = NewsletterSubscriber.email r
      /\ NewsletterSubscriber.subscribed (body d) = true)
  /\ (validate_email email = Valid (NewsletterSubscriber.email r)
      \/ NewsletterSubscriber.email r = email).
Proof.
  destruct w as [s u o c k]. run_subscribe.
  repeat (step_subscribe; run_subscribe).
  all: intros H; try discriminate H; injection H as Hr Hw; subst r w1;
    cbn [db newsletter_subscribers set_newsletter_subscribers] in *.
  1, 2, 4:
    pose proof (find_some _ _ Efind) as [Hin He];
    apply find_update_first_inv in Efind as (d0 & _ & ->);
    [| intros x; apply has_email_set_subscribed];
    (split;
     [ eexists; split; [exact Hin |]; split; reflexivity
     | right; apply String.eqb_eq; exact He ]).
  split; [| left; reflexivity].
  eexists. split; [apply in_or_app; right; left; reflexivity |].
  split; reflexivity.
Qed.

(** Insert then look up: after a call of [subscribe_newsletter] that
    returned a record, the listing of active subscribers contains a
    subscribed record with the email of the returned one; that email is the
    normal form of the address given, or the address as given. *)
Theorem newsletter_subscribe_then_listed (email : string) (w w1 : World)
    (r : NewsletterSubscriber.t) :
  Database.subscribe_newsletter validate_email utcnow_at fault_at email w = (Ok r, w1) ->
  fault_at (db_calls w1) = None ->
  exists l r',
    fst (Database.get_newsletter_subscribers fault_at true w1) = Ok l
    /\ In r' l
    /\ NewsletterSubscriber.email r' = NewsletterSubscriber.email r
    /\ NewsletterSubscriber.subscribed r' = true
    /\ (validate_email email = Valid (NewsletterSubscriber.email r)
        \/ NewsletterSubscriber.email r = email).
Proof.
  intros Hsub Hf.
  destruct (subscribe_newsletter_ok_stored email w w1 r Hsub)
    as ((d & Hin & He & Hs) & Hform).
  rewrite (newsletter_listing_run fault_at true w1 Hf).
  eexists _, (body d). split; [reflexivity |].
  split; [| repeat split; assumption].
  apply in_map.
  apply (Permutation_in _ (Permutation_sym (sort_desc_perm _ _))).
  unfold listed_subscribers. apply filter_In.
  split; assumption.
Qed.

End RoundTrips.

(** * Further properties of the request handlers *)

Section Submissions.

Variable utcnow_at : nat -> datetime.
Variable fault_at : nat -> option string.

Lemma submit_contact_form_run (contact_data : ContactSubmissionCreate.t)
    (w : World) :
  Server.submit_contact_form utcnow_at fault_at contact_data w
  = match Database.create_contact utcnow_at fault_at contact_data w with
    | (Ok contact, w') =>
        (Ok {| ContactResponse.success := true;
               ContactResponse.message :=
                 "Thank you for your message! We'll get back to you within 24 hours.";
               ContactResponse.id := ContactSubmission.id contact |}, w')
    | (Raise _, w') =>
        (Raise (HTTPException 500 "Failed to submit contact form"), w')
    end.
Proof.
  unfold Server.submit_contact_form, try_except, bind, ret, raise.
  destruct (Database.create_contact utcnow_at fault_at contact_data w)
    as [[contact | e] w']; reflexivity.
Qed.

(** A contact form ends in exactly one of two ways.  When the store fails,
    the answer is 500 "Failed to submit contact form" and no record is
    stored.  Otherwise the answer is a success carrying the ObjectId string,
    and one contact is appended: it has the fields of the form, the status
    "new" and a uuid as [id]. *)
Theorem submit_contact_form_outcome (contact_data : ContactSubmissionCreate.t)
    (w : World) :
  let r := Server.submit_contact_form utcnow_at fault_at contact_data w in
  (fault_at (db_calls w) <> None ->
   fst r = Raise (HTTPException 500 "Failed to submit contact form")
   /\ db (snd r) = db w)
  /\ (fault_at (db_calls w) = None ->
      exists resp stored,
        fst r = Ok resp
        /\ ContactResponse.success resp = true
        /\ ContactResponse.id resp = ObjectIdStr (object_ids_drawn w)
        /\ contacts (db (snd r))
           = (contacts (db w) ++ [mkDoc (object_ids_drawn w) stored])%list
        /\ ContactSubmission.id stored = UuidStr (uuids_drawn w)
        /\ ContactSubmission.status stored = "new"
        /\ ContactSubmission.name stored = ContactSubmissionCreate.name contact_data
        /\ ContactSubmission.email stored = ContactSubmissionCreate.email contact_data
        /\ ContactSubmission.message stored
           = ContactSubmissionCreate.message contact_data
        /\ project_inquiries (db (snd r)) = project_inquiries (db w)
        /\ newsletter_subscribers (db (snd r)) = newsletter_subscribers (db w)).
Proof.
  cbv zeta. rewrite submit_contact_form_run, create_contact_run.
  destruct (fault_at (db_calls w)) as [msg |]; split; intros H;
    try congruence.
  - split; reflexivity.
  - eexists _, (bson_contact (contact_built utcnow_at contact_data w)).
    repeat split; reflexivity.
Qed.

(** A project inquiry ends in exactly one of three ways: a success, when the
    type is valid and the store accepts the record; 400 "Invalid project
    type", with the world untouched; or 500 "Failed to submit project
    inquiry", when the type is valid and the store fails, with no record
    stored. *)
Theorem submit_project_inquiry_outcomes (inquiry_data : ProjectInquiryCreate.t)
    (w : World) :
  let r := Server.submit_project_inquiry utcnow_at fault_at inquiry_data w in
  let valid :=
    validate_project_type (ProjectInquiryCreate.project_type inquiry_data) in
  (valid = true /\ fault_at (db_calls w) = None
   /\ exists resp, fst r = Ok resp
                   /\ List.length (project_inquiries (db (snd r)))
                      = S (List.length (project_inquiries (db w))))
  \/ (valid = false
      /\ r = (Raise (HTTPException 400 "Invalid project type"), w))
  \/ (valid = true /\ fault_at (db_calls w) <> None
      /\ fst r = Raise (HTTPException 500 "Failed to submit project inquiry")
      /\ db (snd r) = db w).
Proof.
  cbv zeta.
  destruct (validate_project_type (ProjectInquiryCreate.project_type inquiry_data))
    eqn:Hv.
  - rewrite (submit_project_inquiry_valid utcnow_at fault_at _ _ Hv).
    destruct (fault_at (db_calls w)) as [msg |].
    + right. right. repeat split; try reflexivity. discriminate.
    + left. repeat split. eexists. split; [reflexivity |].
      cbn [snd db project_inquiries set_project_inquiries].
      rewrite length_app. cbn. lia.
  - right. left. split; [reflexivity |].
    apply submit_project_inquiry_invalid. exact Hv.
Qed.

Lemma server_stats_run (w : World) :
  fst (Server.get_company_stats fault_at w)
  = Ok (if counts_succeed fault_at w then stats_of_store (db w)
        else Database.default_stats).
Proof.
  destruct w as [s u o c k]. unfold counts_succeed.
  cbv beta iota zeta delta
    [bind ret raise try_except get_store Driver.db_call
     Driver.contacts_count_documents Driver.project_inquiries_count_documents
     Driver.newsletter_subscribers_count_subscribed
     Database.get_company_stats Server.get_company_stats
     db uuids_drawn object_ids_drawn clock_reads db_calls fst snd].
  destruct (fault_at k); [reflexivity |].
  destruct (fault_at (S k)); [reflexivity |].
  destruct (fault_at (S (S k))); reflexivity.
Qed.

(** An accepted inquiry shows in the statistics: read after it, they count
    one inquiry and one completed project more than the store had, and as
    many contacts as before. *)
Theorem stats_count_new_inquiry (inquiry_data : ProjectInquiryCreate.t)
    (w w1 : World) (resp : ProjectInquiryResponse.t) :
  Server.submit_project_inquiry utcnow_at fault_at inquiry_data w = (Ok resp, w1) ->
  counts_succeed fault_at w1 = true ->
  exists stats,
    fst (Server.get_company_stats fault_at w1) = Ok stats
    /\ Stats.total_inquiries stats = S (List.length (project_inquiries (db w)))
    /\ Stats.projects_completed stats
       = List.length (project_inquiries (db w)) + 86
    /\ Stats.total_contacts stats = List.length (contacts (db w)).
Proof.
  intros Hsub Hc. rewrite server_stats_run, Hc.
  eexists. split; [reflexivity |].
  destruct (validate_project_type (ProjectInquiryCreate.project_type inquiry_data))
    eqn:Hv.
  - rewrite (submit_project_inquiry_valid utcnow_at fault_at _ _ Hv) in Hsub.
    destruct (fault_at (db_calls w)); [discriminate Hsub |].
    injection Hsub as _ <-.
    unfold stats_of_store.
    cbn [db project_inquiries contacts set_project_inquiries
         Stats.total_inquiries Stats.projects_completed Stats.total_contacts].
    rewrite length_app. cbn [List.length]. repeat split; lia.
  - rewrite (submit_project_inquiry_invalid utcnow_at fault_at _ _ Hv) in Hsub.
    discriminate Hsub.
Qed.

(** The contacts keep distinct uuids as [id]s through every operation that
    writes them: [create_contact], the handler [submit_contact_form] and
    [update_contact_status], failing or not. *)
Theorem contact_ids_stay_distinct (contact_data : ContactSubmissionCreate.t)
    (contact_id : ident) (status : string) (w : World) :
  contacts_ok w ->
  contacts_ok (snd (Database.create_contact utcnow_at fault_at contact_data w))
  /\ contacts_ok (snd (Server.submit_contact_form utcnow_at fault_at contact_data w))
  /\ contacts_ok
       (snd (Database.update_contact_status utcnow_at fault_at contact_id status w)).
Proof.
  intros Hok. split; [| split].
  - apply create_contact_keeps_contacts_ok. exact Hok.
  - rewrite submit_contact_form_run.
    pose proof (create_contact_keeps_contacts_ok utcnow_at fault_at
                  contact_data w Hok) as H.
    destruct (Database.create_contact utcnow_at fault_at contact_data w)
      as [[contact | e] w']; exact H.
  - apply update_contact_status_keeps_contacts_ok. exact Hok.
Qed.

End Submissions.

(** * The further properties on concrete worlds *)

(** A store that answers the first request with an error that mentions a
    duplicate key, and every later request normally. *)
Definition spurious_duplicate : nat -> option string :=
  fun k => match k with
           | O => Some "WriteError: Duplicate Key in batch"
           | S _ => None
           end.

(** A store that fails the first request with a timeout. *)
Definition first_call_times_out : nat -> option string :=
  fun k => match k with
           | O => Some "NetworkTimeout: timed out"
           | S _ => None
           end.

(** A connected world with one subscriber who is no longer subscribed. *)
Definition lapsed_subscriber : Doc NewsletterSubscriber.t :=
  mkDoc 0 {| NewsletterSubscriber.id := UuidStr 0;
             NewsletterSubscriber.email := "ada@example.com";
             NewsletterSubscriber.subscribed := false;
             NewsletterSubscriber.created_at := 0%Z;
             NewsletterSubscriber.updated_at := 1%Z |}.

Definition lapsed_world : World :=
  {| db := {| contacts := []; project_inquiries := [];
              newsletter_subscribers := [lapsed_subscriber];
              newsletter_email_unique := true |};
     uuids_drawn := 1; object_ids_drawn := 1; clock_reads := 2; db_calls := 6 |}.

Definition one_contact_world : World := submit_contacts 1 initial_world.

(** [n] inquiries submitted one after the other. *)
Fixpoint submit_inquiries (n : nat) (w : World) : World :=
  match n with
  | O => w
  | S n' =>
      snd (Server.submit_project_inquiry ticking_clock no_fault sample_inquiry
             (submit_inquiries n' w))
  end.

Lemma update_contact_status_no_match_witness :
  fst (Database.update_contact_status ticking_clock no_fault (ObjectIdStr 0)
         "contacted" one_contact_world) = Ok false
  /\ db (snd (Database.update_contact_status ticking_clock no_fault
                (ObjectIdStr 0) "contacted" one_contact_world))
     = db one_contact_world.
Proof.
  apply (update_contact_status_no_match ticking_clock no_fault (ObjectIdStr 0)
           "contacted" one_contact_world); reflexivity.
Defined.

Lemma update_contact_status_match_witness :
  fst (Database.update_contact_status ticking_clock no_fault (UuidStr 0)
         "contacted" one_contact_world) = Ok true.
Proof.
  refine (proj1 (update_contact_status_match ticking_clock no_fault (UuidStr 0)
                   "contacted" one_contact_world _ eq_refl eq_refl eq_refl)).
Defined.

Lemma subscribe_newsletter_reraises_witness :
  fst (Database.subscribe_newsletter lower_domain ticking_clock first_call_times_out
         "ada@example.com" initial_world)
  = Raise (Error "NetworkTimeout: timed out").
Proof.
  refine (proj1 (subscribe_newsletter_reraises lower_domain ticking_clock
                   first_call_times_out "ada@example.com" "ada@example.com"
                   "NetworkTimeout: timed out" initial_world
                   eq_refl eq_refl eq_refl)).
Defined.

Lemma subscribe_newsletter_misread_error_witness :
  fst (Database.subscribe_newsletter lower_domain ticking_clock spurious_duplicate
         "ada@example.com" initial_world)
  = Raise (Error "argument after ** must be a mapping, not NoneType").
Proof.
  refine (proj1 (subscribe_newsletter_misread_error lower_domain ticking_clock
                   spurious_duplicate "ada@example.com" "ada@example.com"
                   "WriteError: Duplicate Key in batch" initial_world
                   eq_refl eq_refl eq_refl eq_refl eq_refl eq_refl)).
Defined.

Lemma newsletter_resubscribe_reactivates_witness :
  exists r w',
    Database.subscribe_newsletter lower_domain ticking_clock no_fault "ada@example.com"
      lapsed_world = (Ok r, w')
    /\ NewsletterSubscriber.subscribed r = true
    /\ NewsletterSubscriber.id r = UuidStr 0.
Proof.
  destruct (newsletter_resubscribe_reactivates lower_domain ticking_clock no_fault
              "ada@example.com" lapsed_world lapsed_subscriber
              eq_refl eq_refl eq_refl eq_refl eq_refl eq_refl)
    as (r & w' & H & Hs & _ & Hid & _).
  exists r, w'. repeat split; assumption.
Defined.

Lemma subscribe_twice_without_index_witness :
  exists r1 w1 r2 w2,
    Database.subscribe_newsletter lower_domain ticking_clock no_fault
      "Ada@EXAMPLE.com" initial_world = (Ok r1, w1)
    /\ Database.subscribe_newsletter lower_domain ticking_clock no_fault
         "Ada@EXAMPLE.com" w1 = (Ok r2, w2)
    /\ email_count "Ada@example.com" (db w2) = 2.
Proof.
  destruct (subscribe_twice_without_index lower_domain ticking_clock no_fault
              "Ada@EXAMPLE.com" "Ada@example.com" initial_world
              eq_refl (fun _ => eq_refl) eq_refl)
    as (r1 & w1 & r2 & w2 & H1 & H2 & _ & _ & _ & Hc).
  exists r1, w1, r2, w2. repeat split; assumption.
Defined.

Lemma subscribe_newsletter_keeps_emails_distinct_witness :
  Driver.emails_distinct
    (newsletter_subscribers
       (db (snd (Database.subscribe_newsletter lower_domain ticking_clock spurious_duplicate
                   "ada@example.com" lapsed_world)))) = true.
Proof.
  refine (proj2 (subscribe_newsletter_keeps_emails_distinct lower_domain
                   ticking_clock spurious_duplicate "ada@example.com"
                   lapsed_world eq_refl eq_refl)).
Defined.

Lemma project_inquiries_pagination_witness :
  let w := submit_inquiries 5 initial_world in
  exists p1 p2 p3,
    fst (Database.get_project_inquiries no_fault 1 2 w) = Ok p1
    /\ fst (Database.get_project_inquiries no_fault 3 4 w) = Ok p2
    /\ fst (Database.get_project_inquiries no_fault 1 6 w) = Ok p3
    /\ (p1 ++ p2)%list = p3.
Proof.
  intros w.
  destruct (project_inquiries_pagination no_fault 1 2 4 w w w)
    as (p1 & p2 & p3 & H1 & H2 & H3 & Happ & _);
    try reflexivity; try lia.
  exists p1, p2, p3. repeat split; assumption.
Defined.

Lemma contacts_page_size_witness :
  exists page,
    fst (Database.get_contacts no_fault 10 10 (submit_contacts 12 initial_world))
    = Ok page
    /\ List.length page = 2.
Proof.
  destruct (contacts_page_size no_fault 10 10 (submit_contacts 12 initial_world))
    as (page & H & Hlen & _); try reflexivity; try lia.
  exists page. split; [exact H | exact Hlen].
Defined.

Lemma listings_reject_negative_witness :
  Server.get_contacts no_fault (-1) 10 one_contact_world
  = (Raise (HTTPException 500 "Failed to retrieve contacts"), one_contact_world).
Proof.
  apply (listings_reject_negative no_fault (-1) 10 one_contact_world).
  left. reflexivity.
Defined.

Lemma get_newsletter_subscribers_lists_witness :
  exists l,
    Database.get_newsletter_subscribers no_fault true lapsed_world
    = (Ok l, after_call lapsed_world)
    /\ Permutation l [].
Proof.
  destruct (get_newsletter_subscribers_lists no_fault true lapsed_world eq_refl)
    as (l & H & Hp & _).
  exists l. split; [exact H | exact Hp].
Defined.

Lemma newsletter_subscribe_then_listed_witness :
  exists l r',
    fst (Database.get_newsletter_subscribers no_fault true
           (snd (Database.subscribe_newsletter lower_domain ticking_clock no_fault
                   "Ada@EXAMPLE.com" connected_world))) = Ok l
    /\ In r' l
    /\ NewsletterSubscriber.email r' = "Ada@example.com"
    /\ NewsletterSubscriber.subscribed r' = true.
Proof.
  destruct (Database.subscribe_newsletter lower_domain ticking_clock no_fault
              "Ada@EXAMPLE.com" connected_world) as [[r | e] w1] eqn:E.
  - destruct (newsletter_subscribe_then_listed lower_domain ticking_clock
                no_fault "Ada@EXAMPLE.com" connected_world w1 r E eq_refl)
      as (l & r' & Hl & Hin & He & Hs & _).
    exists l, r'. cbn [snd]. repeat split; try assumption.
    rewrite He. vm_compute in E. injection E as <- _. reflexivity.
  - vm_compute in E. discriminate E.
Defined.

Lemma stats_count_new_inquiry_witness :
  exists stats,
    fst (Server.get_company_stats no_fault (submit_inquiries 1 initial_world))
    = Ok stats
    /\ Stats.total_inquiries stats = 1
    /\ Stats.projects_completed stats = 86.
Proof.
  destruct (Server.submit_project_inquiry ticking_clock no_fault sample_inquiry
              initial_world) as [[resp | e] w1] eqn:E.
  - destruct (stats_count_new_inquiry ticking_clock no_fault sample_inquiry
                initial_world w1 resp E eq_refl)
      as (stats & H & Ht & Hp & _).
    exists stats. unfold submit_inquiries. rewrite E. cbn [snd].
    repeat split; assumption.
  - vm_compute in E. discriminate E.
Defined.

Lemma contact_ids_stay_distinct_witness :
  contacts_ok
    (snd (Database.create_contact ticking_clock no_fault sample_contact
            initial_world)).
Proof.
  exact (proj1 (contact_ids_stay_distinct ticking_clock no_fault sample_contact
                  (UuidStr 0) "contacted" initial_world contacts_ok_initial)).
Defined.
